(** * Heat-wave dashboard: the loader and the four aggregations of [app.py]

    The development embeds the data path of [app.py]: [load_data], the
    module-level [cidades], and the aggregations [calculate_anomalies],
    [calculate_hw_monthly], [dias_ondas_calor] and [prepare_heatmap_data].

    A DataFrame is a list of rows (row order is table order); the pandas
    operations the code calls (boolean-mask selection, [unique], [sorted],
    [groupby(...).size()], [groupby(...).mean()], [merge(how="left")],
    [fillna]) are given by their list semantics in [Module Pandas].

    Modelling conventions.
    - A finite [float64] cell is a rational ([Q]); a missing cell or NaN
      is [None].  A mean skips missing cells and is NaN on an empty
      selection, and arithmetic with NaN is NaN.  The roundings of the
      floating-point operations are the parameters [Float64Ops]; with
      none of them the arithmetic is exact.
    - A sheet has the expected columns; every city cell holds text, and a
      timestamp cell either parses to a timestamp without time zone or is
      coerced to NaT.  Sheets with an empty city cell, or with
      timestamps that [pd.to_datetime] rejects even with
      [errors="coerce"], are not described.
    - Strings are byte strings; [upper] maps the ASCII letters, which is all
      that can matter for a comparison with the ASCII literal "TRUE". *)

From Stdlib Require Import List Bool Arith ZArith QArith Qabs Lia.
From Stdlib Require Import Ascii String DecimalString.
From Stdlib Require Import Permutation Sorted Finite.
Import ListNotations.

Local Open Scope string_scope.
Local Open Scope list_scope.
Local Open Scope Z_scope.

(** ** Calendar data *)

Inductive Month :=
| January | February | March | April | May | June
| July | August | September | October | November | December.

Definition Month_eqb (a b : Month) : bool :=
  match a, b with
  | January, January | February, February | March, March | April, April
  | May, May | June, June | July, July | August, August
  | September, September | October, October | November, November
  | December, December => true
  | _, _ => false
  end.

(** [Timestamp.month] *)
Definition month_number (m : Month) : Z :=
  match m with
  | January => 1 | February => 2 | March => 3 | April => 4
  | May => 5 | June => 6 | July => 7 | August => 8
  | September => 9 | October => 10 | November => 11 | December => 12
  end.

(** [strftime("%B")], in the C locale the process runs in (the source's
    own comment: month name in English). *)
Definition month_name (m : Month) : string :=
  match m with
  | January => "January" | February => "February" | March => "March"
  | April => "April" | May => "May" | June => "June"
  | July => "July" | August => "August" | September => "September"
  | October => "October" | November => "November" | December => "December"
  end.

Definition calendar : list Month :=
  [January; February; March; April; May; June;
   July; August; September; October; November; December].

(** A [datetime.date]. *)
Record Date := mkDate { d_year : Z; d_month : Month; d_day : Z }.

(** A [pd.Timestamp]: a date and the time of day, in nanoseconds. *)
Record Timestamp := mkTimestamp { ts_date : Date; ts_time : Z }.

Definition ts_year (t : Timestamp) : Z := d_year (ts_date t).
Definition ts_month (t : Timestamp) : Month := d_month (ts_date t).

(** Chronological order of dates and of timestamps. *)
Definition date_lt (a b : Date) : Prop :=
  d_year a < d_year b
  \/ (d_year a = d_year b
      /\ (month_number (d_month a) < month_number (d_month b)
          \/ (d_month a = d_month b /\ d_day a < d_day b))).

Definition date_le (a b : Date) : Prop := date_lt a b \/ a = b.

Definition ts_le (a b : Timestamp) : Prop :=
  date_lt (ts_date a) (ts_date b)
  \/ (ts_date a = ts_date b /\ ts_time a <= ts_time b).

(** ** Python strings *)

Definition upper_char (c : ascii) : ascii :=
  let n := N_of_ascii c in
  if ((97 <=? n) && (n <=? 122))%N then ascii_of_N (n - 32) else c.

(** [str.upper] *)
Fixpoint upper (s : string) : string :=
  match s with
  | EmptyString => EmptyString
  | String c s' => String (upper_char c) (upper s')
  end.

(** ** Cells of the sheet and rows of the table *)

(** A cell of the [index] column, as [pd.to_datetime(..., errors="coerce")]
    sees it. *)
Inductive RawIndex :=
| Parseable (t : Timestamp)
| Unparseable.

(** A finite float cell, given by the shortest decimal digits that read
    back as the same float, which are the digits [float.__repr__]
    prints: the value is 0.d1...dn * 10^decpt, negated when
    [fc_negative].  So 1.0 has the digit 1 and decpt 1, 0.5 the digit 5
    and decpt 0, and 0.0 the digit 0 and decpt 1. *)
Record FloatCell := mkFloatCell {
  fc_negative : bool;
  fc_digits : Decimal.uint;
  fc_decpt : Z
}.

Fixpoint zeros (n : nat) : string :=
  match n with
  | O => EmptyString
  | S n' => String "0" (zeros n')
  end.

(** The exponent of the scientific form: a sign and at least two
    digits. *)
Definition str_exponent (e : Z) : string :=
  let ds := NilZero.string_of_uint (N.to_uint (Z.abs_N e)) in
  ((if (e <? 0)%Z then "-" else "+")
   ++ (if (String.length ds <? 2)%nat then "0" else "") ++ ds)%string.

(** [str(x)] of a finite float: scientific form when decpt is at most -4
    or above 16, positional form otherwise, with ".0" after an integral
    value. *)
Definition str_float (x : FloatCell) : string :=
  let ds := NilEmpty.string_of_uint (fc_digits x) in
  let n := String.length ds in
  let p := fc_decpt x in
  let body :=
    if (p <=? -4) || (16 <? p) then
      (substring 0 1 ds
       ++ (if (1 <? n)%nat then "." ++ substring 1 (n - 1) ds else "")
       ++ "e" ++ str_exponent (p - 1))%string
    else if p <=? 0 then
      ("0." ++ zeros (Z.to_nat (- p)) ++ ds)%string
    else if Z.of_nat n <=? p then
      (ds ++ zeros (Z.to_nat p - n) ++ ".0")%string
    else
      (substring 0 (Z.to_nat p) ds ++ "."
       ++ substring (Z.to_nat p) (n - Z.to_nat p) ds)%string in
  ((if fc_negative x then "-" else "") ++ body)%string.

(** A cell of the [isHW] column: text, a boolean, an integer, a finite
    float, or empty (which pandas reads as the float NaN). *)
Inductive RawFlag :=
| FlagStr (s : string)
| FlagBool (b : bool)
| FlagInt (z : Z)
| FlagFloat (x : FloatCell)
| FlagNaN.

(** [str(x)] on such a cell. *)
Definition py_str (x : RawFlag) : string :=
  match x with
  | FlagStr s => s
  | FlagBool true => "True"
  | FlagBool false => "False"
  | FlagInt z => NilZero.string_of_int (Z.to_int z)
  | FlagFloat x => str_float x
  | FlagNaN => "nan"
  end.

(** A row of the sheet as [pd.read_excel] returns it.  The city cell
    holds text: a sheet with an empty city cell, on which
    [sorted(df["cidade"].unique())] raises [TypeError], is not
    described. *)
Record RawRow := mkRawRow {
  raw_index : RawIndex;
  raw_cidade : string;
  raw_tempMax : option Q;
  raw_tempMed : option Q;
  raw_tempMin : option Q;
  raw_isHW : RawFlag;
  raw_Lat : option Q;
  raw_Long : option Q
}.

(** A row of the table [load_data] returns: [index] is NaT ([None]) or a
    timestamp, [isHW] is a string, [year] and [month] are NaN ([None])
    or numbers. *)
Record Row := mkRow {
  index : option Timestamp;
  cidade : string;
  tempMax : option Q;
  tempMed : option Q;
  tempMin : option Q;
  isHW : string;
  Lat : option Q;
  Long : option Q;
  year : option Z;
  month : option Z
}.

Definition Table := list Row.

(** ** The pandas operations the code uses, on lists *)

Module Pandas.

(** [Series.dropna]: the cells that are present. *)
Fixpoint dropna {A : Type} (col : list (option A)) : list A :=
  match col with
  | [] => []
  | Some a :: col' => a :: dropna col'
  | None :: col' => dropna col'
  end.

(** Subtraction of float cells in exact arithmetic: NaN is absorbing. *)
Definition nan_sub (a b : option Q) : option Q :=
  match a, b with
  | Some x, Some y => Some (x - y)%Q
  | _, _ => None
  end.

Definition Qsum (l : list Q) : Q := fold_right Qplus 0%Q l.

(** A mean with the default [skipna=True], in exact arithmetic: the sum
    of the cells that are present over their number, NaN when there is
    none. *)
Definition mean (col : list (option Q)) : option Q :=
  match dropna col with
  | [] => None
  | v :: vs => Some (Qsum (v :: vs) / inject_Z (Z.of_nat (List.length (v :: vs))))%Q
  end.

(** Python's [range(a, b)]. *)
Definition py_range (a b : Z) : list Z :=
  map (fun i => a + Z.of_nat i) (seq 0 (Z.to_nat (b - a))).

Section Keyed.
Context {K : Type}.
Variable eqb : K -> K -> bool.
Variable leb : K -> K -> bool.

(** [Series.unique()]: the distinct values, in order of first
    appearance. *)
Fixpoint unique (l : list K) : list K :=
  match l with
  | [] => []
  | x :: l' => x :: filter (fun y => negb (eqb x y)) (unique l')
  end.

Fixpoint insert (x : K) (l : list K) : list K :=
  match l with
  | [] => [x]
  | y :: l' => if leb x y then x :: y :: l' else y :: insert x l'
  end.

(** [sorted(...)], ascending. *)
Fixpoint sorted (l : list K) : list K :=
  match l with
  | [] => []
  | x :: l' => insert x (sorted l')
  end.

Definition key_is (k : K) (c : option K) : bool :=
  match c with
  | Some k' => eqb k k'
  | None => false
  end.

(** The group keys of [groupby] (defaults [sort=True], [dropna=True]):
    the distinct keys that are present, ascending. *)
Definition group_keys (col : list (option K)) : list K :=
  sorted (unique (dropna col)).

(** [groupby(key)]: one group per key, the rows of a group in table
    order. *)
Definition groupby {R : Type} (key : R -> option K) (rows : list R)
  : list (K * list R) :=
  map (fun k => (k, filter (fun r => key_is k (key r)) rows))
      (group_keys (map key rows)).

(** [groupby(key).size().reset_index(name=...)] *)
Definition groupby_size {R : Type} (key : R -> option K) (rows : list R)
  : list (K * nat) :=
  map (fun g => (fst g, List.length (snd g))) (groupby key rows).

(** [left.merge(right, on=key, how="left")], the left frame holding
    only the key column: the left rows in their order, each paired
    with every right row of the same key, or with a missing value
    when the right frame has none. *)
Definition merge_left {V : Type} (left : list K) (right : list (K * V))
  : list (K * option V) :=
  flat_map
    (fun k =>
       match filter (fun kv => eqb k (fst kv)) right with
       | [] => [(k, None)]
       | ms => map (fun kv => (k, Some (snd kv))) ms
       end)
    left.

(** [fillna({column: 0})] on a column of counts. *)
Definition fillna0 (l : list (K * option nat)) : list (K * nat) :=
  map (fun kv => (fst kv, match snd kv with Some n => n | None => O end)) l.

End Keyed.

End Pandas.

(** ** The loader: [load_data] *)

Inductive Error :=
| FileNotFoundError.

Inductive result (A : Type) :=
| Ok (a : A)
| Raise (e : Error).
Arguments Ok {A} a.
Arguments Raise {A} e.

(** The spreadsheet at [excel_path]: it cannot be read, or it is a sheet
    with the expected columns and some rows, possibly none, each as
    [RawRow] describes it. *)
Inductive Resource :=
| Unreadable
| Sheet (rows : list RawRow).

Definition read_excel (res : Resource) : result (list RawRow) :=
  match res with
  | Unreadable => Raise FileNotFoundError
  | Sheet rows => Ok rows
  end.

(** [pd.to_datetime(cell, errors="coerce")], on a cell it parses or
    coerces to NaT. *)
Definition to_datetime (c : RawIndex) : option Timestamp :=
  match c with
  | Parseable t => Some t
  | Unparseable => None
  end.

(** The four column assignments of [load_data], on one row. *)
Definition load_row (r : RawRow) : Row :=
  let idx := to_datetime (raw_index r) in
  {| index := idx;
     cidade := raw_cidade r;
     tempMax := raw_tempMax r;
     tempMed := raw_tempMed r;
     tempMin := raw_tempMin r;
     isHW := upper (py_str (raw_isHW r));
     Lat := raw_Lat r;
     Long := raw_Long r;
     year := option_map ts_year idx;
     month := option_map (fun t => month_number (ts_month t)) idx |}.

Definition load_rows (rows : list RawRow) : Table := map load_row rows.

Definition load_data (res : Resource) : result Table :=
  match read_excel res with
  | Raise e => Raise e
  | Ok rows => Ok (load_rows rows)
  end.

(** [cidades = sorted(df["cidade"].unique())] *)
Definition cidades_of (df : Table) : list string :=
  Pandas.sorted String.leb (Pandas.unique String.eqb (map cidade df)).

(** ** Column comparisons (a comparison with NaN is false) *)

Definition year_ge (c : option Z) (a : Z) : bool :=
  match c with Some y => a <=? y | None => false end.

Definition year_le (c : option Z) (a : Z) : bool :=
  match c with Some y => y <=? a | None => false end.

Definition year_eq (c : option Z) (a : Z) : bool :=
  match c with Some y => y =? a | None => false end.

(** [df["isHW"] == "TRUE"] *)
Definition is_hw (r : Row) : bool := (isHW r =? "TRUE")%string.

(** ** [calculate_anomalies] *)

Record Anomaly := mkAnomaly {
  an_year : Z;
  an_tempMed : option Q;
  an_anomalia : option Q
}.

(** The local [dff] of [calculate_anomalies]. *)
Definition anomalies_dff (df : Table) (cid : string) (ano_inicio ano_fim : Z)
  : Table :=
  filter (fun r => (cidade r =? cid)%string
                   && year_ge (year r) ano_inicio
                   && year_le (year r) ano_fim) df.

(** The local [baseline] of [calculate_anomalies]. *)
Definition anomalies_baseline (df : Table) (cid : string)
  (ano_inicio ano_fim : Z) : option Q :=
  Pandas.mean (map tempMed (anomalies_dff df cid ano_inicio ano_fim)).

Definition calculate_anomalies (df : Table) (cid : string)
  (ano_inicio ano_fim : Z) : list Anomaly :=
  let dff := anomalies_dff df cid ano_inicio ano_fim in
  let baseline := Pandas.mean (map tempMed dff) in
  let df_anomalia :=
    map (fun g => (fst g, Pandas.mean (map tempMed (snd g))))
        (Pandas.groupby Z.eqb Z.leb year dff) in
  map (fun ym => {| an_year := fst ym;
                    an_tempMed := snd ym;
                    an_anomalia := Pandas.nan_sub (snd ym) baseline |})
      df_anomalia.

(** *** Floating point

    The cells of the numeric columns are [float64].  Every finite
    [float64] is a rational, so a cell is a rational or NaN; what a
    floating-point operation returns is its exact result rounded, and
    the order in which a mean adds its cells up is the library's own.
    The roundings are parameters: [round] of one arithmetic operation,
    and [series_avg] and [group_avg], the averages that [Series.mean()]
    and [groupby(...).mean()] compute of the cells present, each in its
    own way.  Results are taken to be finite.  [calculate_anomalies]
    above is the function in exact arithmetic, [Float64.exact]. *)

Record Float64Ops := mkFloat64Ops {
  round : Q -> Q;
  series_avg : list Q -> Q;
  group_avg : list Q -> Q
}.

Module Float64.

(** [a - b] on float cells. *)
Definition sub (ops : Float64Ops) (a b : option Q) : option Q :=
  match a, b with
  | Some x, Some y => Some (round ops (x - y)%Q)
  | _, _ => None
  end.

(** A mean with the default [skipna=True]: the average of the cells
    present, NaN when there is none. *)
Definition mean (avg : list Q -> Q) (col : list (option Q)) : option Q :=
  match Pandas.dropna col with
  | [] => None
  | v :: vs => Some (avg (v :: vs))
  end.

Definition calculate_anomalies (ops : Float64Ops) (df : Table) (cid : string)
  (ano_inicio ano_fim : Z) : list Anomaly :=
  let dff := filter (fun r => (cidade r =? cid)%string
                              && year_ge (year r) ano_inicio
                              && year_le (year r) ano_fim) df in
  let baseline := mean (series_avg ops) (map tempMed dff) in
  let df_anomalia :=
    map (fun g => (fst g, mean (group_avg ops) (map tempMed (snd g))))
        (Pandas.groupby Z.eqb Z.leb year dff) in
  map (fun ym => {| an_year := fst ym;
                    an_tempMed := snd ym;
                    an_anomalia := sub ops (snd ym) baseline |})
      df_anomalia.

(** Exact arithmetic: nothing is rounded. *)
Definition exact : Float64Ops :=
  {| round := fun q => q;
     series_avg :=
       fun vs => (Pandas.Qsum vs / inject_Z (Z.of_nat (List.length vs)))%Q;
     group_avg :=
       fun vs => (Pandas.Qsum vs / inject_Z (Z.of_nat (List.length vs)))%Q |}.

End Float64.

(** ** [calculate_hw_monthly] *)

(** The local [dff] of [calculate_hw_monthly]. *)
Definition hw_monthly_dff (df : Table) (cid : string) (ano : Z) : Table :=
  filter (fun r => (cidade r =? cid)%string
                   && year_eq (year r) ano
                   && is_hw r) df.

(** [dff["index"].dt.strftime("%B")], NaN on NaT. *)
Definition mes (r : Row) : option string :=
  option_map (fun t => month_name (ts_month t)) (index r).

Definition all_months : list string :=
  ["January"; "February"; "March"; "April"; "May"; "June";
   "July"; "August"; "September"; "October"; "November"; "December"].

Definition calculate_hw_monthly (df : Table) (cid : string) (ano : Z)
  : list (string * nat) :=
  let dff := hw_monthly_dff df cid ano in
  let monthly_counts := Pandas.groupby_size String.eqb String.leb mes dff in
  Pandas.fillna0 (Pandas.merge_left String.eqb all_months monthly_counts).

(** ** [dias_ondas_calor] *)

(** [.dt.date] on one cell: NaT stays NaT. *)
Definition dt_date (c : option Timestamp) : option Date :=
  option_map ts_date c.

Definition dias_ondas_calor (df : Table) (cid : string) : list (option Date) :=
  map (fun r => dt_date (index r))
      (filter (fun r => (cidade r =? cid)%string && is_hw r) df).

(** ** [prepare_heatmap_data] *)

Definition CityYear : Type := string * Z.

Definition CityYear_eqb (a b : CityYear) : bool :=
  (fst a =? fst b)%string && (snd a =? snd b).

(** Order of the two-column group keys: by city, then by year. *)
Definition CityYear_leb (a b : CityYear) : bool :=
  if (fst a <? fst b)%string then true
  else if (fst a =? fst b)%string then snd a <=? snd b
  else false.

(** The key of a row under [groupby(["cidade", "year"])]. *)
Definition city_year (r : Row) : option CityYear :=
  match year r with
  | Some y => Some (cidade r, y)
  | None => None
  end.

(** [prepare_heatmap_data(df)]; the module-level [cidades] it reads is the
    first argument. *)
Definition prepare_heatmap_data (cidades : list string) (df : Table)
  : list (CityYear * nat) :=
  let df_heatmap :=
    Pandas.groupby_size CityYear_eqb CityYear_leb city_year (filter is_hw df) in
  let all_combinations := list_prod cidades (Pandas.py_range 1981 2024) in
  Pandas.fillna0 (Pandas.merge_left CityYear_eqb all_combinations df_heatmap).

(** ** The aggregations as the process runs them

    The process holds its DataFrames as objects: the table [df] bound at
    start-up, and the frames an aggregation creates (a selection
    [df[mask]] is a new frame, so is [.copy()]).  Column assignment
    [dff["mes"] = ...] writes into the frame [dff] refers to.  The state is
    the object store together with the module-level [cidades].  Only
    frames of observations live in the store; group and merge results,
    which no other name refers to, are values. *)

Module Process.

(** A frame: its rows and, when the column was assigned, the ["mes"]
    column with one cell per row. *)
Record Frame := mkFrame {
  f_rows : Table;
  f_mes : option (list (option string))
}.

Record State := mkState {
  heap : list Frame;
  g_cidades : list string
}.

Definition ref := nat.

(** A computation reads and writes the state; [None] is a reference to
    no object. *)
Definition M (A : Type) : Type := State -> option (A * State).

Definition ret {A : Type} (a : A) : M A := fun s => Some (a, s).

Definition bind {A B : Type} (m : M A) (k : A -> M B) : M B :=
  fun s => match m s with
           | Some (a, s') => k a s'
           | None => None
           end.

Notation "x <- m ;; k" := (bind m (fun x => k))
  (at level 61, m at next level, right associativity).
Notation "m ;;; k" := (bind m (fun _ => k))
  (at level 61, right associativity).

Definition deref (p : ref) : M Frame :=
  fun s => match nth_error (heap s) p with
           | Some f => Some (f, s)
           | None => None
           end.

Definition alloc (f : Frame) : M ref :=
  fun s => Some (List.length (heap s),
                 {| heap := heap s ++ [f]; g_cidades := g_cidades s |}).

Fixpoint update (p : ref) (f : Frame) (h : list Frame) : list Frame :=
  match h, p with
  | [], _ => []
  | _ :: h', O => f :: h'
  | g :: h', S p' => g :: update p' f h'
  end.

(** [frame["mes"] = col] *)
Definition assign_mes (p : ref) (col : list (option string)) : M unit :=
  fun s => match nth_error (heap s) p with
           | Some f =>
               Some (tt, {| heap := update p {| f_rows := f_rows f;
                                                f_mes := Some col |} (heap s);
                            g_cidades := g_cidades s |})
           | None => None
           end.

Definition read_cidades : M (list string) :=
  fun s => Some (g_cidades s, s).

(** [frame[mask]]: a new frame with the selected rows, every column
    selected alike. *)
Definition select_frame (mask : Row -> bool) (f : Frame) : Frame :=
  {| f_rows := filter mask (f_rows f);
     f_mes := option_map
                (fun col => map snd (filter (fun rc => mask (fst rc))
                                            (combine (f_rows f) col)))
                (f_mes f) |}.

Definition select (mask : Row -> bool) (p : ref) : M ref :=
  f <- deref p ;;
  alloc (select_frame mask f).

(** [frame.copy()] *)
Definition copy (p : ref) : M ref :=
  f <- deref p ;;
  alloc f.

(** The ["mes"] column of a frame next to its rows; a frame without the
    column has missing cells there. *)
Definition with_mes (f : Frame) : list (Row * option string) :=
  match f_mes f with
  | Some col => combine (f_rows f) col
  | None => map (fun r => (r, None)) (f_rows f)
  end.

Definition calculate_anomalies (df : ref) (cid : string)
  (ano_inicio ano_fim : Z) : M (list Anomaly) :=
  dff <- select (fun r => (cidade r =? cid)%string
                          && year_ge (year r) ano_inicio
                          && year_le (year r) ano_fim) df ;;
  f <- deref dff ;;
  let baseline := Pandas.mean (map tempMed (f_rows f)) in
  let df_anomalia :=
    map (fun g => (fst g, Pandas.mean (map tempMed (snd g))))
        (Pandas.groupby Z.eqb Z.leb year (f_rows f)) in
  ret (map (fun ym => {| an_year := fst ym;
                         an_tempMed := snd ym;
                         an_anomalia := Pandas.nan_sub (snd ym) baseline |})
           df_anomalia).

Definition calculate_hw_monthly (df : ref) (cid : string) (ano : Z)
  : M (list (string * nat)) :=
  sel <- select (fun r => (cidade r =? cid)%string
                          && year_eq (year r) ano
                          && is_hw r) df ;;
  dff <- copy sel ;;
  f <- deref dff ;;
  assign_mes dff (map mes (f_rows f)) ;;;
  f' <- deref dff ;;
  let monthly_counts :=
    Pandas.groupby_size String.eqb String.leb snd (with_mes f') in
  ret (Pandas.fillna0
         (Pandas.merge_left String.eqb all_months monthly_counts)).

Definition dias_ondas_calor (df : ref) (cid : string)
  : M (list (option Date)) :=
  sel <- select (fun r => (cidade r =? cid)%string && is_hw r) df ;;
  f <- deref sel ;;
  ret (map (fun r => dt_date (index r)) (f_rows f)).

Definition prepare_heatmap_data (df : ref) : M (list (CityYear * nat)) :=
  sel <- select is_hw df ;;
  f <- deref sel ;;
  let df_heatmap :=
    Pandas.groupby_size CityYear_eqb CityYear_leb city_year (f_rows f) in
  cidades <- read_cidades ;;
  let all_combinations := list_prod cidades (Pandas.py_range 1981 2024) in
  ret (Pandas.fillna0
         (Pandas.merge_left CityYear_eqb all_combinations df_heatmap)).

(** Every object of state [s] is the same object in state [s'], and so
    is the module-level [cidades]. *)
Definition preserves (s s' : State) : Prop :=
  g_cidades s' = g_cidades s
  /\ forall p f, nth_error (heap s) p = Some f ->
                 nth_error (heap s') p = Some f.

(** Two successive invocations of [m] from state [s] both return [out]
    and leave the objects of [s] as they were. *)
Definition twice {A : Type} (m : M A) (s : State) (out : A) : Prop :=
  exists s1 s2,
    m s = Some (out, s1) /\ m s1 = Some (out, s2)
    /\ preserves s s1 /\ preserves s s2.

End Process.

(** ** Predicates used to state the properties *)

(** The observation of row [r] falls in month [m]. *)
Definition falls_in (m : Month) (r : Row) : bool :=
  match index r with
  | Some t => Month_eqb (ts_month t) m
  | None => false
  end.

(** The rule the specification gives for the heat-wave flag of a cell:
    its string form, uppercased, equals "TRUE". *)
Definition flag_rule (x : RawFlag) : bool :=
  (upper (py_str x) =? "TRUE")%string.

(** The letters, lower case and upper case. *)
Definition letters : list (ascii * ascii) :=
  [("a", "A"); ("b", "B"); ("c", "C"); ("d", "D"); ("e", "E"); ("f", "F"); ("g", "G"); ("h", "H"); ("i", "I"); ("j", "J"); ("k", "K"); ("l", "L"); ("m", "M"); ("n", "N"); ("o", "O"); ("p", "P"); ("q", "Q"); ("r", "R"); ("s", "S"); ("t", "T"); ("u", "U"); ("v", "V"); ("w", "W"); ("x", "X"); ("y", "Y"); ("z", "Z")]%char.

(** "Uppercased", as the specification says it, by the table of
    letters. *)
Definition uppercase_char (c : ascii) : ascii :=
  match find (fun p => (fst p =? c)%char) letters with
  | Some p => snd p
  | None => c
  end.

Fixpoint uppercase (s : string) : string :=
  match s with
  | EmptyString => EmptyString
  | String c s' => String (uppercase_char c) (uppercase s')
  end.

Definition either_case (lower upper c : ascii) : bool :=
  ((c =? lower) || (c =? upper))%char.

(** The text is the word "true", each letter in either case. *)
Definition spells_true (s : string) : bool :=
  match s with
  | String c1 (String c2 (String c3 (String c4 EmptyString))) =>
      either_case "t" "T" c1 && either_case "r" "R" c2
      && either_case "u" "U" c3 && either_case "e" "E" c4
  | _ => false
  end.

(** The cells of the flag column that count as a heat wave, encoding by
    encoding. *)
Definition counts_as_heat_wave (x : RawFlag) : bool :=
  match x with
  | FlagStr s => spells_true s
  | FlagBool b => b
  | FlagInt _ => false
  | FlagFloat _ => false
  | FlagNaN => false
  end.

(** The string holds a point or a sign. *)
Definition is_mark (c : ascii) : bool :=
  ((c =? ".") || (c =? "+") || (c =? "-"))%char.

Fixpoint has_mark (s : string) : bool :=
  match s with
  | EmptyString => false
  | String c s' => is_mark c || has_mark s'
  end.

(** The timestamp cell of a sheet row parses. *)
Definition parseable (raw : RawRow) : bool :=
  match raw_index raw with
  | Parseable _ => true
  | Unparseable => false
  end.

(** ** Sample data *)

Definition day (y : Z) (m : Month) (d : Z) : RawIndex :=
  Parseable (mkTimestamp (mkDate y m d) 0).

Definition obs (i : RawIndex) (c : string) (t : Q) (f : RawFlag) : RawRow :=
  {| raw_index := i; raw_cidade := c;
     raw_tempMax := Some (t + 5)%Q; raw_tempMed := Some t;
     raw_tempMin := Some (t - 5)%Q;
     raw_isHW := f; raw_Lat := None; raw_Long := None |}.

Definition sample_sheet : list RawRow :=
  [ obs (day 2020 January 3) "Recife" 27 (FlagStr "true");
    obs (day 2020 January 4) "Recife" 28 (FlagBool true);
    obs (day 2020 March 9) "Recife" 26 (FlagStr "TRUE");
    obs (day 2021 March 4) "Recife" 25 (FlagInt 1);
    obs (day 1990 July 1) "Manaus" 30 (FlagStr "True") ].

(** A sheet without any heat-wave day. *)
Definition calm_sheet : list RawRow :=
  [ obs (day 2019 June 1) "Recife" 24 (FlagBool false);
    obs (day 2019 June 2) "Recife" 23 (FlagInt 0) ].

(** A row whose timestamp does not parse, flagged as heat wave. *)
Definition undated_row : RawRow :=
  obs Unparseable "Recife" 29 (FlagStr "TRUE").

(** The process after start-up on the sample sheet: the table is the
    only object. *)
Definition sample_state : Process.State :=
  {| Process.heap := [ {| Process.f_rows := load_rows sample_sheet;
                          Process.f_mes := None |} ];
     Process.g_cidades := cidades_of (load_rows sample_sheet) |}.

(** ** Python builtins used by the module body and the callbacks *)

Inductive Exception :=
| LoadError (e : Error)
| ValueError
| IndexError
| TypeError.

Inductive outcome (A : Type) :=
| Done (a : A)
| Failed (e : Exception).
Arguments Done {A} a.
Arguments Failed {A} e.

Module Python.

Definition bind {A B : Type} (m : outcome A) (k : A -> outcome B) : outcome B :=
  match m with
  | Done a => k a
  | Failed e => Failed e
  end.

Notation "x <-- m ;; k" := (bind m (fun x => k))
  (at level 61, m at next level, right associativity).

(** The loop of the builtins [min] and [max]: the running best is
    replaced by an item that compares better; a comparison that raises
    ends the loop. *)
Fixpoint best_of {A : Type} (better : A -> A -> outcome bool) (best : A)
  (l : list A) : outcome A :=
  match l with
  | [] => Done best
  | v :: l' =>
      b <-- better v best ;;
      if b then best_of better v l' else best_of better best l'
  end.

(** [min(l)], with [lt v best] the value of [v < best]. *)
Definition py_min {A : Type} (lt : A -> A -> outcome bool) (l : list A)
  : outcome A :=
  match l with
  | [] => Failed ValueError
  | x :: l' => best_of lt x l'
  end.

(** [max(l)], with [gt v best] the value of [v > best]. *)
Definition py_max {A : Type} (gt : A -> A -> outcome bool) (l : list A)
  : outcome A :=
  match l with
  | [] => Failed ValueError
  | x :: l' => best_of gt x l'
  end.

(** [l[0]] *)
Definition item0 {A : Type} (l : list A) : outcome A :=
  match l with
  | [] => Failed IndexError
  | x :: _ => Done x
  end.

(** [l[-1]] *)
Definition item_last {A : Type} (l : list A) : outcome A :=
  match rev l with
  | [] => Failed IndexError
  | x :: _ => Done x
  end.

(** A comprehension whose element expression may raise. *)
Fixpoint comprehension {A B : Type} (f : A -> outcome B) (l : list A)
  : outcome (list B) :=
  match l with
  | [] => Done []
  | a :: l' =>
      b <-- f a ;;
      bs <-- comprehension f l' ;;
      Done (b :: bs)
  end.

(** [str(n)] of an integer. *)
Definition str_int (z : Z) : string := NilZero.string_of_int (Z.to_int z).

(** [int(a)] of a cell of the year column: NaN has no integer value. *)
Definition py_int (a : option Z) : outcome Z :=
  match a with
  | Some z => Done z
  | None => Failed ValueError
  end.

(** [str(a)] of a cell of the year column.  (The column holds floats
    only when a NaN is among its cells; the one place that takes [str]
    of such cells raises on the NaN and drops the strings.) *)
Definition str_year (a : option Z) : string :=
  match a with
  | Some z => str_int z
  | None => "nan"
  end.

End Python.

(** ** Comparisons of dates, timestamps and year cells *)

Definition date_eqb (a b : Date) : bool :=
  (d_year a =? d_year b) && Month_eqb (d_month a) (d_month b)
  && (d_day a =? d_day b).

(** [a < b] on [datetime.date]. *)
Definition date_ltb (a b : Date) : bool :=
  (d_year a <? d_year b)
  || ((d_year a =? d_year b)
      && ((month_number (d_month a) <? month_number (d_month b))
          || (Month_eqb (d_month a) (d_month b) && (d_day a <? d_day b)))).

(** [a < b] on [pd.Timestamp]. *)
Definition ts_ltb (a b : Timestamp) : bool :=
  date_ltb (ts_date a) (ts_date b)
  || (date_eqb (ts_date a) (ts_date b) && (ts_time a <? ts_time b)).

(** An ordering comparison on cells that may be missing: false when
    either is NaT or NaN. *)
Definition cell_ltb {T : Type} (ltb : T -> T -> bool) (a b : option T) : bool :=
  match a, b with
  | Some x, Some y => ltb x y
  | _, _ => false
  end.

(** [a < b] and [a > b] on cells of the [index] column. *)
Definition index_lt (a b : option Timestamp) : outcome bool :=
  Done (cell_ltb ts_ltb a b).

Definition index_gt (a b : option Timestamp) : outcome bool :=
  Done (cell_ltb ts_ltb b a).

(** [a < b] and [a > b] on cells of the [year] column. *)
Definition year_lt (a b : option Z) : outcome bool :=
  Done (cell_ltb Z.ltb a b).

Definition year_gt (a b : option Z) : outcome bool :=
  Done (cell_ltb Z.ltb b a).

Definition year_cell_eqb (a b : option Z) : bool :=
  match a, b with
  | Some x, Some y => x =? y
  | None, None => true
  | _, _ => false
  end.

Definition is_present {A : Type} (c : option A) : bool :=
  match c with Some _ => true | None => false end.

(** ** The module body: start-up of the process *)

(** [anos = sorted(df["year"].unique())]; [unique] keeps one NaN.  When a
    NaN is among the values the order Python's sort leaves them in is
    not modelled, and the list is kept in order of first appearance:
    the module body reads such a list only through [min] and [max],
    whose values it drops, and through [int(a)], which raises on the
    NaN wherever it stands. *)
Definition year_cells (df : Table) : list (option Z) :=
  Pandas.unique year_cell_eqb (map year df).

Definition anos_of (df : Table) : list (option Z) :=
  let years := year_cells df in
  if forallb is_present years
  then map Some (Pandas.sorted Z.leb (Pandas.dropna years))
  else years.

(** The years of [anos] when no cell of the column is missing. *)
Definition anos_years (df : Table) : list Z :=
  Pandas.sorted Z.leb (Pandas.dropna (year_cells df)).

(** [df.drop_duplicates(key)]: the first row of every key, in table
    order. *)
Fixpoint drop_duplicates {K : Type} (eqb : K -> K -> bool) (key : Row -> K)
  (rows : list Row) : list Row :=
  match rows with
  | [] => []
  | r :: rows' =>
      r :: filter (fun r' => negb (eqb (key r) (key r')))
                  (drop_duplicates eqb key rows')
  end.

(** The properties of the layout that are computed from the table. *)
Record Layout := mkLayout {
  slider_min : option Z;
  slider_max : option Z;
  slider_marks : list (Z * string);
  slider_value : option Z * option Z;
  map_markers : list ((option Q * option Q) * string);
  map_center : option Q * option Q;
  cidade_temp_options : list string;
  cidade_temp_value : string;
  cidade_hw_options : list (string * string);
  cidade_hw_value : string;
  ano_hw_options : list (string * option Z);
  ano_hw_value : option Z;
  calendario_min : option Date;
  calendario_max : option Date
}.

(** The module-level names bound when the module body has run. *)
Record Started := mkStarted {
  st_df : Table;
  st_cidades : list string;
  st_anos : list (option Z);
  st_layout : Layout
}.

Definition of_load {A : Type} (r : result A) : outcome A :=
  match r with
  | Ok a => Done a
  | Raise e => Failed (LoadError e)
  end.

Import Python.

(** The module body, its data-dependent expressions in evaluation order:
    [load_data()], [cidades], [anos], then the arguments of the layout
    (the range slider, the map, the dropdowns, the date picker). *)
Definition startup (res : Resource) : outcome Started :=
  df <-- of_load (load_data res) ;;
  let cidades := cidades_of df in
  let anos := anos_of df in
  lo <-- py_min year_lt anos ;;
  hi <-- py_max year_gt anos ;;
  marks <-- comprehension (fun a => k <-- py_int a ;; Done (k, str_year a)) anos ;;
  value_lo <-- py_min year_lt anos ;;
  value_hi <-- py_max year_gt anos ;;
  let markers :=
    map (fun row => ((Lat row, Long row), cidade row))
        (drop_duplicates String.eqb cidade df) in
  let center := (Pandas.mean (map Lat df), Pandas.mean (map Long df)) in
  cidade_temp <-- item0 cidades ;;
  cidade_hw <-- item0 cidades ;;
  ano_hw <-- item_last anos ;;
  first_day <-- py_min index_lt (map index df) ;;
  last_day <-- py_max index_gt (map index df) ;;
  Done {| st_df := df;
          st_cidades := cidades;
          st_anos := anos;
          st_layout :=
            {| slider_min := lo;
               slider_max := hi;
               slider_marks := marks;
               slider_value := (value_lo, value_hi);
               map_markers := markers;
               map_center := center;
               cidade_temp_options := cidades;
               cidade_temp_value := cidade_temp;
               cidade_hw_options := map (fun c => (c, c)) cidades;
               cidade_hw_value := cidade_hw;
               ano_hw_options := map (fun a => (str_year a, a)) anos;
               ano_hw_value := ano_hw;
               calendario_min := dt_date first_day;
               calendario_max := dt_date last_day |} |}.

(** ** The callbacks [update_temp] and [update_hw]

    A figure is represented by the series and the title it is built
    from; the styling arguments are constants. *)

Record TempFigure := mkTempFigure {
  tf_x : list (option Timestamp);
  tf_maxima : list (option Q);
  tf_media : list (option Q);
  tf_minima : list (option Q);
  tf_title : string
}.

Record AnomalyFigure := mkAnomalyFigure {
  af_points : list Anomaly;
  af_size : list (option Q);
  af_title : string
}.

(** [np.abs] on a float cell; the absolute value of a float is exact. *)
Definition nan_abs (a : option Q) : option Q := option_map Qabs a.

(** [px.scatter(..., size=...)]: a marker size that is NaN is
    refused. *)
Definition px_scatter (points : list Anomaly) (size : list (option Q))
  (title : string) : outcome AnomalyFigure :=
  if forallb is_present size
  then Done {| af_points := points; af_size := size; af_title := title |}
  else Failed ValueError.

Definition update_temp (ops : Float64Ops) (df : Table) (cid : string)
  (anos_selecionados : Z * Z) : outcome (TempFigure * AnomalyFigure) :=
  let (ano_inicio, ano_fim) := anos_selecionados in
  let dff := filter (fun r => (cidade r =? cid)%string
                              && year_ge (year r) ano_inicio
                              && year_le (year r) ano_fim) df in
  let period := ("(" ++ str_int ano_inicio ++ "-" ++ str_int ano_fim ++ ")")%string in
  let fig_temp :=
    {| tf_x := map index dff;
       tf_maxima := map tempMax dff;
       tf_media := map tempMed dff;
       tf_minima := map tempMin dff;
       tf_title := ("Temperaturas em " ++ cid ++ " " ++ period)%string |} in
  let df_anomalia := Float64.calculate_anomalies ops df cid ano_inicio ano_fim in
  fig_anomalia <--
    px_scatter df_anomalia
               (map (fun a => nan_abs (an_anomalia a)) df_anomalia)
               ("Anomalias de Temperatura Média - " ++ cid ++ " " ++ period)%string ;;
  Done (fig_temp, fig_anomalia).

Record PolarFigure := mkPolarFigure {
  pf_r : list nat;
  pf_theta : list string;
  pf_title : string
}.

Record HwOutputs := mkHwOutputs {
  hw_heatmap : list (CityYear * nat);
  hw_polar : PolarFigure;
  hw_start_date : option Date;
  hw_end_date : option Date;
  hw_min_date_allowed : option Date;
  hw_max_date_allowed : option Date
}.

Section Callback.

(** What an ordering comparison between a [datetime.date] and NaT gives:
    [False] or a [TypeError], by the version of pandas. *)
Variable date_with_NaT : outcome bool.

(** [a < b] on the items of [dias_ondas_calor]. *)
Definition dia_lt (a b : option Date) : outcome bool :=
  match a, b with
  | Some x, Some y => Done (date_ltb x y)
  | None, None => Done false
  | _, _ => date_with_NaT
  end.

Definition dia_gt (a b : option Date) : outcome bool := dia_lt b a.

(** [update_hw(cidade, ano_polar)], reading the module-level [df] and
    [cidades].  (The local [max_dias_hw] is computed with a default and
    never read.) *)
Definition update_hw (df : Table) (cidades : list string) (cid : string)
  (ano_polar : Z) : outcome HwOutputs :=
  let df_heatmap := prepare_heatmap_data cidades df in
  let df_polar := calculate_hw_monthly df cid ano_polar in
  let fig_polar :=
    {| pf_r := map snd df_polar;
       pf_theta := map fst df_polar;
       pf_title := ("Frequência de Ondas de Calor em " ++ cid ++ " - "
                    ++ str_int ano_polar)%string |} in
  let dias_calor := dias_ondas_calor df cid in
  bounds <-- match dias_calor with
             | _ :: _ =>
                 min_date <-- py_min dia_lt dias_calor ;;
                 max_date <-- py_max dia_gt dias_calor ;;
                 Done (min_date, max_date)
             | [] =>
                 first_day <-- py_min index_lt (map index df) ;;
                 last_day <-- py_max index_gt (map index df) ;;
                 Done (dt_date first_day, dt_date last_day)
             end ;;
  Done {| hw_heatmap := df_heatmap;
          hw_polar := fig_polar;
          hw_start_date := fst bounds;
          hw_end_date := snd bounds;
          hw_min_date_allowed := fst bounds;
          hw_max_date_allowed := snd bounds |}.

End Callback.

(** The outputs of [update_hw] given the two calendar bounds. *)
Definition hw_outputs (df : Table) (cidades : list string) (cid : string)
  (ano_polar : Z) (lo hi : option Date) : HwOutputs :=
  {| hw_heatmap := prepare_heatmap_data cidades df;
     hw_polar :=
       {| pf_r := map snd (calculate_hw_monthly df cid ano_polar);
          pf_theta := map fst (calculate_hw_monthly df cid ano_polar);
          pf_title := ("Frequência de Ondas de Calor em " ++ cid ++ " - "
                       ++ str_int ano_polar)%string |};
     hw_start_date := lo;
     hw_end_date := hi;
     hw_min_date_allowed := lo;
     hw_max_date_allowed := hi |}.

(** The layout a sheet gives, from the least and greatest year [lo] and
    [hi], the first city [c0] and the first and last timestamps [t0]
    and [t1]. *)
Definition layout_of (df : Table) (lo hi : Z) (c0 : string)
  (t0 t1 : Timestamp) : Layout :=
  {| slider_min := Some lo;
     slider_max := Some hi;
     slider_marks := map (fun y => (y, str_int y)) (anos_years df);
     slider_value := (Some lo, Some hi);
     map_markers := map (fun row => ((Lat row, Long row), cidade row))
                        (drop_duplicates String.eqb cidade df);
     map_center := (Pandas.mean (map Lat df), Pandas.mean (map Long df));
     cidade_temp_options := cidades_of df;
     cidade_temp_value := c0;
     cidade_hw_options := map (fun c => (c, c)) (cidades_of df);
     cidade_hw_value := c0;
     ano_hw_options := map (fun y => (str_int y, Some y)) (anos_years df);
     ano_hw_value := Some hi;
     calendario_min := Some (ts_date t0);
     calendario_max := Some (ts_date t1) |}.

(** What the layout values are in the table. *)
Definition layout_facts (df : Table) (lo hi : Z) (c0 : string)
  (t0 t1 : Timestamp) : Prop :=
  (In lo (anos_years df) /\ In hi (anos_years df)
   /\ forall y, In y (anos_years df) -> lo <= y <= hi)
  /\ (exists cs, cidades_of df = c0 :: cs)
  /\ (In (Some t0) (map index df) /\ In (Some t1) (map index df)
      /\ forall r, In r df ->
                   exists t, index r = Some t /\ ts_le t0 t /\ ts_le t t1)
  /\ (py_min index_lt (map index df) = Done (Some t0)
      /\ py_max index_gt (map index df) = Done (Some t1)).

(** A sheet with station coordinates. *)
Definition station (i : RawIndex) (c : string) (lat long t : Q) (f : RawFlag)
  : RawRow :=
  {| raw_index := i; raw_cidade := c;
     raw_tempMax := Some (t + 5)%Q; raw_tempMed := Some t;
     raw_tempMin := Some (t - 5)%Q;
     raw_isHW := f; raw_Lat := Some lat; raw_Long := Some long |}.

Definition station_sheet : list RawRow :=
  [ station (day 2001 February 10) "Recife" (-8) (-35) 27 (FlagStr "TRUE");
    station (day 1999 December 31) "Manaus" (-3) (-60) 31 (FlagStr "FALSE");
    station (day 2001 February 11) "Recife" (-8) (-35) 29 (FlagStr "TRUE");
    station (day 2003 May 2) "Manaus" (-3) (-60) 30 (FlagStr "TRUE") ].

Definition station_started : Started :=
  {| st_df := load_rows station_sheet;
     st_cidades := ["Manaus"; "Recife"];
     st_anos := [Some 1999; Some 2001; Some 2003];
     st_layout :=
       {| slider_min := Some 1999;
          slider_max := Some 2003;
          slider_marks := [(1999, "1999"); (2001, "2001"); (2003, "2003")];
          slider_value := (Some 1999, Some 2003);
          map_markers := [((Some (-8)%Q, Some (-35)%Q), "Recife");
                          ((Some (-3)%Q, Some (-60)%Q), "Manaus")];
          map_center := (Pandas.mean (map Lat (load_rows station_sheet)),
                         Pandas.mean (map Long (load_rows station_sheet)));
          cidade_temp_options := ["Manaus"; "Recife"];
          cidade_temp_value := "Manaus";
          cidade_hw_options := [("Manaus", "Manaus"); ("Recife", "Recife")];
          cidade_hw_value := "Manaus";
          ano_hw_options := [("1999", Some 1999); ("2001", Some 2001);
                             ("2003", Some 2003)];
          ano_hw_value := Some 2003;
          calendario_min := Some (mkDate 1999 December 31);
          calendario_max := Some (mkDate 2003 May 2) |} |}.

(** ** Means, as the specification says them *)

(** The cells of a column that hold a number. *)
Definition numbers (col : list (option Q)) : list Q :=
  flat_map (fun c => match c with Some v => [v] | None => [] end) col.

(** The arithmetic mean of a column: the sum of its numbers over their
    count, undefined when it has none. *)
Definition arithmetic_mean (col : list (option Q)) : option Q :=
  match numbers col with
  | [] => None
  | vs => Some (fold_right Qplus 0%Q vs / inject_Z (Z.of_nat (List.length vs)))%Q
  end.

(** The mean of a column as a floating-point average [avg] computes
    it. *)
Definition rounded_mean (avg : list Q -> Q) (col : list (option Q))
  : option Q :=
  match numbers col with
  | [] => None
  | vs => Some (avg vs)
  end.

(** [a] minus [b], undefined when either is. *)
Definition minus (a b : option Q) : option Q :=
  match a, b with
  | Some x, Some y => Some (x - y)%Q
  | _, _ => None
  end.

(** * Properties *)

(** ** Facts about the list operations *)

Module PandasFacts.
Import Pandas.

Lemma In_dropna {A : Type} (a : A) (col : list (option A)) :
  In a (dropna col) <-> In (Some a) col.
Proof.
  induction col as [|[b|] col IH]; simpl.
  - tauto.
  - rewrite IH. split; intros [H|H]; auto; left; congruence.
  - rewrite IH. split; [auto | intros [H|H]; [discriminate | exact H]].
Qed.

Lemma dropna_map_Some {A : Type} (l : list A) : dropna (map Some l) = l.
Proof. induction l; simpl; congruence. Qed.

Lemma dropna_option_map {A B : Type} (f : A -> B) (col : list (option A)) :
  dropna (map (option_map f) col) = map f (dropna col).
Proof.
  induction col as [|[a|] col IH]; simpl; congruence.
Qed.

Lemma length_py_range (a b : Z) :
  List.length (py_range a b) = Z.to_nat (b - a).
Proof. unfold py_range. now rewrite length_map, length_seq. Qed.

Lemma In_py_range (a b y : Z) : In y (py_range a b) <-> a <= y < b.
Proof.
  unfold py_range. rewrite in_map_iff. split.
  - intros (i & <- & Hi). apply in_seq in Hi. lia.
  - intros H. exists (Z.to_nat (y - a)). split; [lia|].
    apply in_seq. lia.
Qed.

Lemma NoDup_py_range (a b : Z) : NoDup (py_range a b).
Proof.
  unfold py_range. apply Finite.Injective_map_NoDup.
  - intros i j H. lia.
  - apply seq_NoDup.
Qed.

Lemma list_sum_map_add {A : Type} (f g : A -> nat) (l : list A) :
  list_sum (map (fun a => f a + g a)%nat l)
  = (list_sum (map f l) + list_sum (map g l))%nat.
Proof. induction l; simpl; lia. Qed.

Lemma list_sum_map_zero {A : Type} (f : A -> nat) (l : list A) :
  (forall a, In a l -> f a = O) -> list_sum (map f l) = O.
Proof.
  induction l as [|a l IH]; simpl; intros H; [reflexivity|].
  rewrite (H a), IH; auto.
Qed.

Lemma filter_filter {A : Type} (p q : A -> bool) (l : list A) :
  filter p (filter q l) = filter (fun a => q a && p a) l.
Proof.
  induction l as [|a l IH]; simpl; [reflexivity|].
  destruct (q a); simpl; [destruct (p a)|]; congruence.
Qed.

Lemma filter_map_comm {A B : Type} (f : A -> B) (p : B -> bool) (l : list A) :
  filter p (map f l) = map f (filter (fun a => p (f a)) l).
Proof.
  induction l as [|a l IH]; simpl; [reflexivity|].
  destruct (p (f a)); simpl; congruence.
Qed.

Lemma filter_nil_iff {A : Type} (p : A -> bool) (l : list A) :
  filter p l = [] <-> forall a, In a l -> p a = false.
Proof.
  induction l as [|a l IH]; simpl.
  - split; [intros _ ? [] | reflexivity].
  - destruct (p a) eqn:E.
    + split; [discriminate|]. intros H. specialize (H a (or_introl eq_refl)).
      congruence.
    + rewrite IH. split.
      * intros H b [<-|Hb]; auto.
      * intros H b Hb. apply H. now right.
Qed.

Section EqFacts.
Context {K : Type}.
Variable eqb : K -> K -> bool.
Hypothesis eqb_eq : forall x y, eqb x y = true <-> x = y.

Lemma eqb_refl (x : K) : eqb x x = true.
Proof. now apply eqb_eq. Qed.

Lemma eqb_neq (x y : K) : eqb x y = false <-> x <> y.
Proof.
  destruct (eqb x y) eqn:E.
  - apply eqb_eq in E. split; [discriminate | congruence].
  - split; [|reflexivity]. intros _ H. apply eqb_eq in H. congruence.
Qed.

Lemma In_unique (x : K) (l : list K) : In x (unique eqb l) <-> In x l.
Proof.
  induction l as [|y l IH]; simpl; [tauto|].
  rewrite filter_In, IH.
  destruct (eqb y x) eqn:E; simpl.
  - apply eqb_eq in E. subst. split; intros _; now left.
  - apply eqb_neq in E. split.
    + intros [H|[H _]]; auto.
    + intros [H|H]; [congruence | auto].
Qed.

Lemma NoDup_unique (l : list K) : NoDup (unique eqb l).
Proof.
  induction l as [|y l IH]; simpl; constructor.
  - rewrite filter_In. intros [_ H]. now rewrite eqb_refl in H.
  - now apply NoDup_filter.
Qed.

Lemma filter_eqb_in (k : K) (l : list K) :
  NoDup l -> In k l -> filter (eqb k) l = [k].
Proof.
  induction 1 as [|x l Hx Hl IH]; simpl; [tauto|].
  intros [->|Hk].
  - rewrite eqb_refl. f_equal.
    apply filter_nil_iff. intros a Ha. apply eqb_neq. congruence.
  - destruct (eqb k x) eqn:E; [|auto].
    apply eqb_eq in E. congruence.
Qed.

Lemma filter_eqb_notin (k : K) (l : list K) :
  ~ In k l -> filter (eqb k) l = [].
Proof.
  intros H. apply filter_nil_iff. intros a Ha. apply eqb_neq. congruence.
Qed.

Lemma key_is_true (k : K) (c : option K) :
  key_is eqb k c = true <-> c = Some k.
Proof.
  destruct c as [k'|]; simpl.
  - rewrite eqb_eq. split; congruence.
  - split; discriminate.
Qed.

Lemma merge_left_cons {V : Type} (k : K) (left : list K)
  (right : list (K * V)) :
  merge_left eqb (k :: left) right
  = match filter (fun kv => eqb k (fst kv)) right with
    | [] => [(k, None)]
    | ms => map (fun kv => (k, Some (snd kv))) ms
    end ++ merge_left eqb left right.
Proof. reflexivity. Qed.

Lemma fillna0_app (l1 l2 : list (K * option nat)) :
  fillna0 (l1 ++ l2) = fillna0 l1 ++ fillna0 l2.
Proof. apply map_app. Qed.

Lemma In_dec_key (k : K) (l : list K) : In k l \/ ~ In k l.
Proof.
  induction l as [|x l IH]; simpl; [tauto|].
  destruct (eqb x k) eqn:E.
  - apply eqb_eq in E. auto.
  - apply eqb_neq in E. tauto.
Qed.

(** The zero-filled left merge of a key list with the group sizes:
    each key of the left list, in order, with the number of rows of
    that key. *)
Lemma length_filter_cons {R : Type} (p : R -> bool) (r : R) (rows : list R) :
  List.length (filter p (r :: rows))
  = ((if p r then 1 else 0) + List.length (filter p rows))%nat.
Proof. simpl. now destruct (p r). Qed.

Lemma sum_key_is (c : option K) (ks : list K) :
  NoDup ks ->
  list_sum (map (fun k => if key_is eqb k c then 1 else 0)%nat ks)
  = (if existsb (fun k => key_is eqb k c) ks then 1 else 0)%nat.
Proof.
  induction 1 as [|k ks Hk Hks IH]; simpl; [reflexivity|].
  destruct (key_is eqb k c) eqn:E; simpl; [|exact IH].
  apply key_is_true in E. subst c. f_equal.
  apply list_sum_map_zero. intros a Ha. simpl.
  destruct (eqb a k) eqn:E; [|reflexivity].
  apply eqb_eq in E. congruence.
Qed.

(** Group sizes summed over distinct keys: the number of rows whose
    key is among them. *)
Lemma sum_group_sizes {R : Type} (key : R -> option K) (rows : list R)
  (ks : list K) :
  NoDup ks ->
  list_sum (map (fun k => List.length (filter (fun r => key_is eqb k (key r)) rows)) ks)
  = List.length (filter (fun r => existsb (fun k => key_is eqb k (key r)) ks) rows).
Proof.
  intros Hks. induction rows as [|r rows IH].
  - simpl. now apply list_sum_map_zero.
  - rewrite length_filter_cons, <- IH, <- (sum_key_is (key r) ks Hks).
    rewrite <- list_sum_map_add. apply f_equal, map_ext. intros k.
    apply (length_filter_cons (fun r0 => key_is eqb k (key r0))).
Qed.

End EqFacts.

Section SortFacts.
Context {K : Type}.
Variable leb : K -> K -> bool.

Lemma insert_perm (x : K) (l : list K) : Permutation (insert leb x l) (x :: l).
Proof.
  induction l as [|y l IH]; simpl; [reflexivity|].
  destruct (leb x y); [reflexivity|].
  rewrite IH. apply perm_swap.
Qed.

Lemma sorted_perm (l : list K) : Permutation (sorted leb l) l.
Proof.
  induction l as [|y l IH]; simpl; [reflexivity|].
  rewrite insert_perm. now constructor.
Qed.

Lemma In_sorted (x : K) (l : list K) : In x (sorted leb l) <-> In x l.
Proof.
  split; apply Permutation_in;
    [apply sorted_perm | symmetry; apply sorted_perm].
Qed.

Lemma NoDup_sorted (l : list K) : NoDup l -> NoDup (sorted leb l).
Proof.
  apply Permutation_NoDup. symmetry. apply sorted_perm.
Qed.

Section Order.
Hypothesis leb_total : forall x y, leb x y = true \/ leb y x = true.
Hypothesis leb_trans :
  forall x y z, leb x y = true -> leb y z = true -> leb x z = true.

Let le (x y : K) : Prop := leb x y = true.

Lemma insert_StronglySorted (x : K) (l : list K) :
  StronglySorted le l -> StronglySorted le (insert leb x l).
Proof.
  induction 1 as [|y l Hl IH Hy]; simpl.
  - repeat constructor.
  - destruct (leb x y) eqn:E.
    + constructor; [now constructor|].
      constructor; [exact E|].
      revert Hy. apply Forall_impl. intros z. now apply leb_trans.
    + constructor; [exact IH|].
      apply Forall_forall. intros z Hz.
      apply (Permutation_in _ (insert_perm x l)) in Hz.
      destruct Hz as [<-|Hz].
      * destruct (leb_total x y) as [H|H]; [congruence | exact H].
      * rewrite Forall_forall in Hy. now apply Hy.
Qed.

Lemma sorted_StronglySorted (l : list K) :
  StronglySorted le (sorted leb l).
Proof.
  induction l as [|x l IH]; simpl; [constructor|].
  now apply insert_StronglySorted.
Qed.

End Order.

End SortFacts.

Section GroupFacts.
Context {K : Type}.
Variable eqb : K -> K -> bool.
Variable leb : K -> K -> bool.
Hypothesis eqb_eq : forall x y, eqb x y = true <-> x = y.

Lemma In_group_keys (k : K) (col : list (option K)) :
  In k (group_keys eqb leb col) <-> In (Some k) col.
Proof.
  unfold group_keys. now rewrite In_sorted, (In_unique eqb eqb_eq), In_dropna.
Qed.

Lemma NoDup_group_keys (col : list (option K)) :
  NoDup (group_keys eqb leb col).
Proof. apply NoDup_sorted, (NoDup_unique eqb eqb_eq). Qed.

Lemma groupby_size_keys {R : Type} (key : R -> option K) (rows : list R) :
  groupby_size eqb leb key rows
  = map (fun k => (k, List.length (filter (fun r => key_is eqb k (key r)) rows)))
        (group_keys eqb leb (map key rows)).
Proof. unfold groupby_size, groupby. now rewrite map_map. Qed.

Lemma merge_left_groupby_size {R : Type} (key : R -> option K)
  (rows : list R) (left : list K) :
  fillna0 (merge_left eqb left (groupby_size eqb leb key rows))
  = map (fun k => (k, List.length (filter (fun r => key_is eqb k (key r)) rows)))
        left.
Proof.
  induction left as [|k left IH]; [reflexivity|].
  rewrite merge_left_cons, fillna0_app, IH. clear IH.
  change (map ?f (k :: left)) with (f k :: map f left).
  change (?x :: ?l) with ([x] ++ l) at 2. f_equal.
  rewrite groupby_size_keys.
  rewrite (filter_map_comm
             (fun k0 => (k0, List.length (filter (fun r => key_is eqb k0 (key r)) rows)))
             (fun kv => eqb k (fst kv))).
  cbn [fst].
  change (fun a : K => eqb k a) with (eqb k).
  destruct (In_dec_key eqb eqb_eq k (group_keys eqb leb (map key rows))) as [Hin|Hin].
  - rewrite (filter_eqb_in eqb eqb_eq k _ (NoDup_group_keys _) Hin). reflexivity.
  - rewrite (filter_eqb_notin eqb eqb_eq k _ Hin). cbn. f_equal. f_equal.
    symmetry. apply length_zero_iff_nil, filter_nil_iff.
    intros r Hr. destruct (key_is eqb k (key r)) eqn:E; [|reflexivity].
    apply (key_is_true eqb eqb_eq) in E. exfalso. apply Hin, In_group_keys.
    rewrite <- E. now apply in_map.
Qed.

End GroupFacts.

End PandasFacts.

(** ** The model on the sample data *)

Example load_sample_flags :
  map isHW (load_rows sample_sheet) = ["TRUE"; "TRUE"; "TRUE"; "1"; "TRUE"].
Proof. reflexivity. Qed.

Example py_str_negative : py_str (FlagInt (-12)) = "-12".
Proof. reflexivity. Qed.

Example load_undated :
  map (fun r => (index r, year r, month r)) (load_rows [undated_row])
  = [(None, None, None)].
Proof. reflexivity. Qed.

Example cidades_sample : cidades_of (load_rows sample_sheet) = ["Manaus"; "Recife"].
Proof. reflexivity. Qed.

(** Three heat-wave days in Recife in 2020: two in January, one in
    March. *)
Example hw_monthly_sample :
  calculate_hw_monthly (load_rows sample_sheet) "Recife" 2020
  = [("January", 2%nat); ("February", O); ("March", 1%nat); ("April", O);
     ("May", O); ("June", O); ("July", O); ("August", O); ("September", O);
     ("October", O); ("November", O); ("December", O)].
Proof. reflexivity. Qed.

(** The groups of [groupby("mes")] come in alphabetical order; the merge
    with [all_months] is what puts the months in calendar order. *)
Example groupby_mes_sample :
  Pandas.groupby_size String.eqb String.leb mes
    (hw_monthly_dff (load_rows sample_sheet) "Recife" 2020)
  = [("January", 2%nat); ("March", 1%nat)]
  /\ Pandas.sorted String.leb ["March"; "January"; "April"]
     = ["April"; "January"; "March"].
Proof. split; reflexivity. Qed.

Example anomalies_sample :
  map (fun a => (an_year a, an_tempMed a))
      (calculate_anomalies (load_rows sample_sheet) "Recife" 2000 2030)
  = [(2020, Some (81 # 3)); (2021, Some (25 # 1))]
  /\ anomalies_baseline (load_rows sample_sheet) "Recife" 2000 2030
     = Some (106 # 4).
Proof. split; reflexivity. Qed.

Example dias_sample :
  dias_ondas_calor (load_rows sample_sheet) "Recife"
  = [Some (mkDate 2020 January 3); Some (mkDate 2020 January 4);
     Some (mkDate 2020 March 9)].
Proof. reflexivity. Qed.

Example heatmap_sample :
  filter (fun c => negb (Nat.eqb (snd c) 0))
         (prepare_heatmap_data (cidades_of (load_rows sample_sheet))
                               (load_rows sample_sheet))
  = [(("Manaus", 1990), 1%nat); (("Recife", 2020), 3%nat)].
Proof. vm_compute. reflexivity. Qed.

(** ** Monthly heat-wave frequency *)

Section HwMonthly.
Import Pandas PandasFacts.

Lemma all_months_calendar : all_months = map month_name calendar.
Proof. reflexivity. Qed.

Lemma month_name_eqb (m m' : Month) :
  (month_name m =? month_name m')%string = Month_eqb m' m.
Proof. destruct m, m'; reflexivity. Qed.

Lemma key_is_mes (m : Month) (r : Row) :
  key_is String.eqb (month_name m) (mes r) = falls_in m r.
Proof.
  unfold mes, falls_in. destruct (index r) as [t|]; simpl; [|reflexivity].
  apply month_name_eqb.
Qed.

(** The output of [calculate_hw_monthly], month by month. *)
Lemma calculate_hw_monthly_counts (df : Table) (cid : string) (ano : Z) :
  calculate_hw_monthly df cid ano
  = map (fun m => (month_name m,
                   List.length (filter (falls_in m) (hw_monthly_dff df cid ano))))
        calendar.
Proof.
  unfold calculate_hw_monthly.
  rewrite (merge_left_groupby_size String.eqb String.leb String.eqb_eq).
  rewrite all_months_calendar, map_map.
  apply map_ext. intros m. do 2 f_equal.
  apply filter_ext. intros r. apply key_is_mes.
Qed.

Lemma calculate_hw_monthly_cells (df : Table) (cid : string) (ano : Z) :
  calculate_hw_monthly df cid ano
  = map (fun m =>
           (month_name m,
            List.length
              (filter (fun r => (cidade r =? cid)%string
                                && year_eq (year r) ano
                                && is_hw r
                                && falls_in m r) df)))
        calendar.
Proof.
  rewrite calculate_hw_monthly_counts.
  apply map_ext. intros m. do 2 f_equal.
  unfold hw_monthly_dff. apply filter_filter.
Qed.

(** Rows with a timestamp are spread over the twelve months. *)
Lemma sum_over_calendar (l : list Row) :
  Forall (fun r => index r <> None) l ->
  list_sum (map (fun m => List.length (filter (falls_in m) l)) calendar)
  = List.length l.
Proof.
  induction 1 as [|r l Hr Hl IH]; [reflexivity|].
  unfold calendar in *. cbn [map list_sum] in *.
  rewrite !length_filter_cons. cbn [List.length]. rewrite <- IH.
  unfold falls_in at 1 3 5 7 9 11 13 15 17 19 21 23.
  destruct (index r) as [t|]; [|congruence].
  destruct (ts_month t); cbn [Month_eqb]; unfold list_sum; cbn [fold_right]; lia.
Qed.

Lemma load_rows_year_index (raws : list RawRow) (r : Row) (y : Z) :
  In r (load_rows raws) -> year r = Some y -> index r <> None.
Proof.
  unfold load_rows. rewrite in_map_iff. intros (raw & <- & _).
  unfold load_row. simpl. destruct (to_datetime (raw_index raw)); simpl;
    congruence.
Qed.

Lemma year_eq_true (c : option Z) (a : Z) :
  year_eq c a = true <-> c = Some a.
Proof.
  destruct c as [y|]; simpl.
  - rewrite Z.eqb_eq. split; congruence.
  - split; discriminate.
Qed.

End HwMonthly.

(** C1.  On every loaded table, for every city and year,
    [calculate_hw_monthly] returns twelve records, named January to
    December in calendar order; the record of a month holds the number of
    rows of that city and year with the heat-wave flag that fall in the
    month (so 0 when there is none); and the twelve counts add up to the
    number of heat-wave rows of that city and year. *)
Theorem calculate_hw_monthly_calendar (raws : list RawRow) (cid : string) (ano : Z) :
  let df := load_rows raws in
  let out := calculate_hw_monthly df cid ano in
  List.length out = 12%nat
  /\ map fst out = ["January"; "February"; "March"; "April"; "May"; "June";
                    "July"; "August"; "September"; "October"; "November";
                    "December"]
  /\ out = map (fun m =>
                  (month_name m,
                   List.length
                     (filter (fun r => (cidade r =? cid)%string
                                       && year_eq (year r) ano
                                       && is_hw r
                                       && falls_in m r) df)))
               calendar
  /\ list_sum (map snd out)
     = List.length (filter (fun r => (cidade r =? cid)%string
                                     && year_eq (year r) ano
                                     && is_hw r) df).
Proof.
  intros df out. subst out.
  rewrite calculate_hw_monthly_counts.
  split; [|split; [|split]].
  - now rewrite length_map.
  - rewrite map_map. reflexivity.
  - rewrite <- calculate_hw_monthly_counts. apply calculate_hw_monthly_cells.
  - rewrite map_map. cbn [snd].
    apply sum_over_calendar.
    apply Forall_forall. intros r Hr.
    apply filter_In in Hr. destruct Hr as [Hr Hm].
    apply andb_prop in Hm. destruct Hm as [Hm _].
    apply andb_prop in Hm. destruct Hm as [_ Hy].
    apply year_eq_true in Hy.
    exact (load_rows_year_index raws r ano Hr Hy).
Qed.

(** ** Temperature anomalies *)

Section Anomalies.
Import Pandas PandasFacts.

Lemma Z_eqb_eq (x y : Z) : (x =? y) = true <-> x = y.
Proof. apply Z.eqb_eq. Qed.

Lemma key_is_year (k : Z) (c : option Z) : key_is Z.eqb k c = year_eq c k.
Proof. destruct c; simpl; [apply Z.eqb_sym | reflexivity]. Qed.

(** The output of [calculate_anomalies], group key by group key. *)
Lemma calculate_anomalies_keys (df : Table) (cid : string) (a b : Z) :
  calculate_anomalies df cid a b
  = map (fun k =>
           let m := mean (map tempMed
                            (filter (fun r => year_eq (year r) k)
                                    (anomalies_dff df cid a b))) in
           {| an_year := k;
              an_tempMed := m;
              an_anomalia := nan_sub m (anomalies_baseline df cid a b) |})
        (group_keys Z.eqb Z.leb (map year (anomalies_dff df cid a b))).
Proof.
  unfold calculate_anomalies, groupby, anomalies_baseline.
  rewrite !map_map. apply map_ext. intros k. cbn [fst snd].
  rewrite (filter_ext _ _ (fun r => key_is_year k (year r))).
  reflexivity.
Qed.

Lemma StronglySorted_leb_lt (l : list Z) :
  StronglySorted (fun x y => (x <=? y) = true) l -> NoDup l ->
  StronglySorted Z.lt l.
Proof.
  induction 1 as [|x l Hl IH Hx]; intros Hnd; constructor.
  - apply IH. now inversion Hnd.
  - inversion Hnd as [|? ? Hnotin _]; subst.
    rewrite Forall_forall in *. intros y Hy.
    specialize (Hx y Hy). apply Z.leb_le in Hx.
    assert (x <> y) by congruence. lia.
Qed.

Lemma group_keys_year_increasing (col : list (option Z)) :
  StronglySorted Z.lt (group_keys Z.eqb Z.leb col).
Proof.
  apply StronglySorted_leb_lt.
  - unfold group_keys. apply sorted_StronglySorted.
    + intros x y. rewrite !Z.leb_le. lia.
    + intros x y z. rewrite !Z.leb_le. lia.
  - apply (NoDup_group_keys Z.eqb Z.leb Z_eqb_eq).
Qed.

Lemma anomalies_dff_In (df : Table) (cid : string) (a b : Z) (r : Row) :
  In r (anomalies_dff df cid a b)
  <-> In r df /\ cidade r = cid
      /\ exists y, year r = Some y /\ a <= y <= b.
Proof.
  unfold anomalies_dff. rewrite filter_In, !andb_true_iff, String.eqb_eq.
  unfold year_ge, year_le. destruct (year r) as [y|].
  - rewrite !Z.leb_le. split.
    + intros (H & (H1 & H2) & H3). repeat split; auto. exists y. auto.
    + intros (H & H1 & y' & Hy & H2). injection Hy as <-. tauto.
  - split.
    + intros (_ & (_ & H) & _). discriminate.
    + intros (_ & _ & y & Hy & _). discriminate.
Qed.

(** [mean] of a column without missing cells is the sum over the
    number of cells. *)
Lemma mean_present (v : Q) (vs : list Q) :
  mean (map Some (v :: vs))
  = Some (Qsum (v :: vs) / inject_Z (Z.of_nat (List.length (v :: vs))))%Q.
Proof. unfold mean. now rewrite dropna_map_Some. Qed.

Lemma mean_nil : mean [] = None.
Proof. reflexivity. Qed.

(** In exact arithmetic the function is the one above. *)
Lemma calculate_anomalies_exact (df : Table) (cid : string) (a b : Z) :
  Float64.calculate_anomalies Float64.exact df cid a b
  = calculate_anomalies df cid a b.
Proof. reflexivity. Qed.

(** The output of [calculate_anomalies] in floating point, group key by
    group key. *)
Lemma calculate_anomalies_float_keys (ops : Float64Ops) (df : Table)
  (cid : string) (a b : Z) :
  Float64.calculate_anomalies ops df cid a b
  = map (fun k =>
           let m := Float64.mean (group_avg ops)
                      (map tempMed
                         (filter (fun r => year_eq (year r) k)
                                 (anomalies_dff df cid a b))) in
           {| an_year := k;
              an_tempMed := m;
              an_anomalia :=
                Float64.sub ops m
                  (Float64.mean (series_avg ops)
                     (map tempMed (anomalies_dff df cid a b))) |})
        (group_keys Z.eqb Z.leb (map year (anomalies_dff df cid a b))).
Proof.
  unfold Float64.calculate_anomalies, groupby.
  fold (anomalies_dff df cid a b).
  rewrite !map_map. apply map_ext. intros k. cbn [fst snd].
  rewrite (filter_ext _ _ (fun r => key_is_year k (year r))).
  reflexivity.
Qed.

(** The selection, as one test on the rows of the table. *)
Lemma anomalies_dff_filter (df : Table) (cid : string) (a b : Z) :
  anomalies_dff df cid a b
  = filter (fun r => (cidade r =? cid)%string
                     && match year r with
                        | Some y => (a <=? y) && (y <=? b)
                        | None => false
                        end) df.
Proof.
  unfold anomalies_dff. apply filter_ext. intros r.
  unfold year_ge, year_le. destruct (year r) as [y|].
  - now rewrite andb_assoc.
  - now rewrite !andb_false_r.
Qed.

Lemma year_group_filter (dff : Table) (k : Z) :
  filter (fun r => year_eq (year r) k) dff
  = filter (fun r => match year r with
                     | Some y => y =? k
                     | None => false
                     end) dff.
Proof. reflexivity. Qed.

Lemma numbers_dropna (col : list (option Q)) : numbers col = dropna col.
Proof.
  induction col as [|[v|] col IH]; simpl; [reflexivity | | exact IH].
  now rewrite IH.
Qed.

Lemma arithmetic_mean_mean (col : list (option Q)) :
  arithmetic_mean col = mean col.
Proof.
  unfold arithmetic_mean, mean. rewrite numbers_dropna.
  now destruct (dropna col).
Qed.

Lemma rounded_mean_mean (avg : list Q -> Q) (col : list (option Q)) :
  rounded_mean avg col = Float64.mean avg col.
Proof.
  unfold rounded_mean, Float64.mean. rewrite numbers_dropna.
  now destruct (dropna col).
Qed.

Lemma minus_nan_sub (a b : option Q) : minus a b = nan_sub a b.
Proof. now destruct a, b. Qed.

Lemma rounded_minus_sub (ops : Float64Ops) (a b : option Q) :
  option_map (round ops) (minus a b) = Float64.sub ops a b.
Proof. now destruct a, b. Qed.

End Anomalies.

(** C2.  For every table, city and inclusive year range,
    [calculate_anomalies] selects the rows of the table, in table order,
    that have the city and a year in the range; its baseline is the mean
    of [tempMed] over that whole selection; and it returns one record
    per year of the selection, years ascending, holding the mean of
    [tempMed] over the rows of that year and, as anomaly, that mean
    minus the baseline.  In exact arithmetic the means are arithmetic
    means (the sum of the numbers over their count, undefined when
    there is none) and the anomaly is their difference; in floating
    point, whatever the roundings, each mean is the average the library
    computes of the same numbers, undefined in the same cases, and the
    anomaly is the difference of the two means, rounded. *)
Theorem calculate_anomalies_by_year (df : Table) (cid : string) (ano_inicio ano_fim : Z) :
  let dff :=
    filter (fun r => (cidade r =? cid)%string
                     && match year r with
                        | Some y => (ano_inicio <=? y) && (y <=? ano_fim)
                        | None => false
                        end) df in
  let of_year (y : Z) :=
    filter (fun r => match year r with
                     | Some y' => y' =? y
                     | None => false
                     end) dff in
  exists years : list Z,
    StronglySorted Z.lt years
    /\ (forall y, In y years <-> exists r, In r dff /\ year r = Some y)
    /\ calculate_anomalies df cid ano_inicio ano_fim
       = map (fun y =>
                {| an_year := y;
                   an_tempMed := arithmetic_mean (map tempMed (of_year y));
                   an_anomalia :=
                     minus (arithmetic_mean (map tempMed (of_year y)))
                           (arithmetic_mean (map tempMed dff)) |})
             years
    /\ (forall ops : Float64Ops,
          Float64.calculate_anomalies ops df cid ano_inicio ano_fim
          = map (fun y =>
                   {| an_year := y;
                      an_tempMed :=
                        rounded_mean (group_avg ops) (map tempMed (of_year y));
                      an_anomalia :=
                        option_map (round ops)
                          (minus (rounded_mean (group_avg ops)
                                    (map tempMed (of_year y)))
                                 (rounded_mean (series_avg ops)
                                    (map tempMed dff))) |})
                years).
Proof.
  intros dff of_year.
  assert (Hdff : anomalies_dff df cid ano_inicio ano_fim = dff)
    by apply anomalies_dff_filter.
  exists (Pandas.group_keys Z.eqb Z.leb (map year dff)).
  split; [apply group_keys_year_increasing|].
  split; [|split].
  - intros y.
    rewrite (PandasFacts.In_group_keys Z.eqb Z.leb Z_eqb_eq), in_map_iff.
    split; intros (r & H1 & H2); exists r; auto.
  - rewrite calculate_anomalies_keys. unfold anomalies_baseline.
    rewrite Hdff. apply map_ext. intros y. cbn zeta.
    rewrite year_group_filter. fold (of_year y).
    rewrite !arithmetic_mean_mean. reflexivity.
  - intros ops. rewrite calculate_anomalies_float_keys, Hdff.
    apply map_ext. intros y. cbn zeta.
    rewrite year_group_filter. fold (of_year y).
    rewrite !rounded_mean_mean. f_equal. symmetry. apply rounded_minus_sub.
Qed.

(** ** The heat-wave days grid *)

Section Heatmap.
Import Pandas PandasFacts.

Lemma CityYear_eqb_eq (a b : CityYear) : CityYear_eqb a b = true <-> a = b.
Proof.
  destruct a as [c y], b as [c' y']. unfold CityYear_eqb. simpl.
  rewrite andb_true_iff, String.eqb_eq, Z.eqb_eq.
  split; [intros [-> ->]; reflexivity | intros H; now inversion H].
Qed.

Lemma key_is_city_year (cy : CityYear) (r : Row) :
  key_is CityYear_eqb cy (city_year r)
  = (cidade r =? fst cy)%string && year_eq (year r) (snd cy).
Proof.
  unfold city_year, year_eq. destruct (year r) as [y|]; simpl.
  - unfold CityYear_eqb. simpl. now rewrite String.eqb_sym, Z.eqb_sym.
  - now rewrite andb_false_r.
Qed.

Lemma NoDup_list_prod {A B : Type} (l : list A) (l' : list B) :
  NoDup l -> NoDup l' -> NoDup (list_prod l l').
Proof.
  intros Hl Hl'. induction Hl as [|a l Ha Hl IH]; simpl; [constructor|].
  apply NoDup_app.
  - apply Finite.Injective_map_NoDup; [|exact Hl'].
    intros x y H. now inversion H.
  - exact IH.
  - intros [a' b'] H1 H2. apply in_map_iff in H1.
    destruct H1 as (y & H1 & _). inversion H1; subst.
    apply in_prod_iff in H2. tauto.
Qed.

Lemma prepare_heatmap_data_keys (cidades : list string) (df : Table) :
  prepare_heatmap_data cidades df
  = map (fun cy =>
           (cy, List.length
                  (filter (fun r => key_is CityYear_eqb cy (city_year r))
                          (filter is_hw df))))
        (list_prod cidades (py_range 1981 2024)).
Proof.
  unfold prepare_heatmap_data.
  apply (merge_left_groupby_size CityYear_eqb CityYear_leb CityYear_eqb_eq).
Qed.

(** The cells of [prepare_heatmap_data], pair by pair. *)
Lemma prepare_heatmap_data_cells (cidades : list string) (df : Table) :
  prepare_heatmap_data cidades df
  = map (fun cy =>
           (cy, List.length
                  (filter (fun r => is_hw r
                                    && (cidade r =? fst cy)%string
                                    && year_eq (year r) (snd cy)) df)))
        (list_prod cidades (py_range 1981 2024)).
Proof.
  rewrite prepare_heatmap_data_keys.
  apply map_ext. intros cy. do 2 f_equal.
  rewrite filter_filter. apply filter_ext. intros r.
  now rewrite key_is_city_year, andb_assoc.
Qed.

Lemma In_cidades_of (df : Table) (c : string) :
  In c (cidades_of df) <-> exists r, In r df /\ cidade r = c.
Proof.
  unfold cidades_of.
  rewrite In_sorted, (In_unique String.eqb String.eqb_eq), in_map_iff.
  split; intros (r & H1 & H2); exists r; auto.
Qed.

Lemma NoDup_cidades_of (df : Table) : NoDup (cidades_of df).
Proof. apply NoDup_sorted, (NoDup_unique String.eqb String.eqb_eq). Qed.

(** A row of the table has its key on the grid exactly when its year
    lies in the span. *)
Lemma on_grid (df : Table) (r : Row) :
  In r df ->
  existsb (fun cy => key_is CityYear_eqb cy (city_year r))
          (list_prod (cidades_of df) (py_range 1981 2024))
  = year_ge (year r) 1981 && year_le (year r) 2023.
Proof.
  intros Hr. apply eq_true_iff_eq.
  rewrite existsb_exists, andb_true_iff.
  unfold city_year, year_ge, year_le.
  destruct (year r) as [y|]; simpl.
  - rewrite !Z.leb_le. split.
    + intros ([c y'] & Hin & Heq). apply CityYear_eqb_eq in Heq.
      inversion Heq; subst. apply in_prod_iff in Hin.
      destruct Hin as [_ Hin]. apply In_py_range in Hin. lia.
    + intros H. exists (cidade r, y). split.
      * apply in_prod_iff. split.
        -- apply In_cidades_of. now exists r.
        -- apply In_py_range. lia.
      * now apply CityYear_eqb_eq.
  - split; [intros (cy & _ & H); discriminate | intros [H _]; discriminate].
Qed.

Lemma prepare_heatmap_data_sum (df : Table) :
  list_sum (map snd (prepare_heatmap_data (cidades_of df) df))
  = List.length (filter (fun r => is_hw r
                                  && year_ge (year r) 1981
                                  && year_le (year r) 2023) df).
Proof.
  rewrite prepare_heatmap_data_keys, map_map. cbn [snd].
  rewrite (sum_group_sizes CityYear_eqb CityYear_eqb_eq).
  - rewrite filter_filter. f_equal.
    apply filter_ext_in. intros r Hr.
    rewrite (on_grid df r Hr). now rewrite andb_assoc.
  - apply NoDup_list_prod; [apply NoDup_cidades_of | apply NoDup_py_range].
Qed.

End Heatmap.

(** C3.  For every table, with [cidades] the cities of the table,
    [prepare_heatmap_data] returns one row per pair of the cross product
    of [cidades] with the years 1981 to 2023, that is [|cidades| * 43]
    rows; the cell of a pair holds the number of rows with the heat-wave
    flag of that city and year (0 when there is none); and the cells add
    up to the number of heat-wave rows whose year lies in the span. *)
Theorem prepare_heatmap_data_grid (df : Table) :
  let cidades := cidades_of df in
  let out := prepare_heatmap_data cidades df in
  (NoDup cidades /\ forall c, In c cidades <-> exists r, In r df /\ cidade r = c)
  /\ (List.length (Pandas.py_range 1981 2024) = 43%nat
      /\ forall y, In y (Pandas.py_range 1981 2024) <-> 1981 <= y <= 2023)
  /\ List.length out = (List.length cidades * 43)%nat
  /\ map fst out = list_prod cidades (Pandas.py_range 1981 2024)
  /\ out = map (fun cy =>
                  (cy, List.length
                         (filter (fun r => is_hw r
                                           && (cidade r =? fst cy)%string
                                           && year_eq (year r) (snd cy)) df)))
               (list_prod cidades (Pandas.py_range 1981 2024))
  /\ list_sum (map snd out)
     = List.length (filter (fun r => is_hw r
                                     && year_ge (year r) 1981
                                     && year_le (year r) 2023) df).
Proof.
  intros cidades out. subst out cidades.
  split; [|split; [|split; [|split; [|split]]]].
  - split; [apply NoDup_cidades_of | apply In_cidades_of].
  - split; [reflexivity|]. intros y. rewrite PandasFacts.In_py_range. lia.
  - rewrite prepare_heatmap_data_cells.
    rewrite length_map, length_prod, PandasFacts.length_py_range. reflexivity.
  - rewrite prepare_heatmap_data_cells, map_map. cbn [fst]. apply map_id.
  - apply prepare_heatmap_data_cells.
  - apply prepare_heatmap_data_sum.
Qed.

(** ** The heat-wave flag *)

Section Flag.
Import Pandas PandasFacts.

Lemma is_hw_load_row (raw : RawRow) :
  is_hw (load_row raw) = flag_rule (raw_isHW raw).
Proof. reflexivity. Qed.

(** The decimal form of an integer never uppercases to "TRUE". *)
Lemma flag_rule_int (z : Z) : flag_rule (FlagInt z) = false.
Proof.
  unfold flag_rule, py_str.
  destruct (Z.to_int z) as [u|u]; destruct u; reflexivity.
Qed.

Lemma filter_load_rows (p : Row -> bool) (raws : list RawRow) :
  filter p (load_rows raws)
  = load_rows (filter (fun raw => p (load_row raw)) raws).
Proof. apply filter_map_comm. Qed.

Lemma length_load_rows (raws : list RawRow) :
  List.length (load_rows raws) = List.length raws.
Proof. apply length_map. Qed.

Lemma uppercase_char_upper (c : ascii) : uppercase_char c = upper_char c.
Proof. destruct c as [[] [] [] [] [] [] [] []]; reflexivity. Qed.

Lemma uppercase_upper (s : string) : uppercase s = upper s.
Proof.
  induction s as [|c s IH]; simpl; [reflexivity|].
  now rewrite uppercase_char_upper, IH.
Qed.

Lemma upper_char_is_T (c : ascii) :
  (upper_char c =? "T")%char = either_case "t" "T" c.
Proof. destruct c as [[] [] [] [] [] [] [] []]; reflexivity. Qed.

Lemma upper_char_is_R (c : ascii) :
  (upper_char c =? "R")%char = either_case "r" "R" c.
Proof. destruct c as [[] [] [] [] [] [] [] []]; reflexivity. Qed.

Lemma upper_char_is_U (c : ascii) :
  (upper_char c =? "U")%char = either_case "u" "U" c.
Proof. destruct c as [[] [] [] [] [] [] [] []]; reflexivity. Qed.

Lemma upper_char_is_E (c : ascii) :
  (upper_char c =? "E")%char = either_case "e" "E" c.
Proof. destruct c as [[] [] [] [] [] [] [] []]; reflexivity. Qed.

(** Text uppercases to "TRUE" exactly when it spells the word. *)
Lemma upper_spells_true (s : string) :
  (upper s =? "TRUE")%string = spells_true s.
Proof.
  assert (cons_eqb : forall c d s t,
             (String c s =? String d t)%string
             = (c =? d)%char && (s =? t)%string).
  { intros c d s0 t. simpl. now destruct (c =? d)%char. }
  destruct s as [|c1 [|c2 [|c3 [|c4 [|c5 s]]]]];
    unfold upper; fold upper; rewrite ?cons_eqb; unfold spells_true;
    rewrite ?upper_char_is_T, ?upper_char_is_R, ?upper_char_is_U,
      ?upper_char_is_E.
  - reflexivity.
  - simpl. now rewrite andb_false_r.
  - simpl. now rewrite !andb_false_r.
  - simpl. now rewrite !andb_false_r.
  - simpl. now rewrite andb_true_r, !andb_assoc.
  - simpl. now rewrite !andb_false_r.
Qed.

Lemma is_mark_upper_char (c : ascii) : is_mark (upper_char c) = is_mark c.
Proof. destruct c as [[] [] [] [] [] [] [] []]; reflexivity. Qed.

Lemma has_mark_upper (s : string) : has_mark (upper s) = has_mark s.
Proof.
  induction s as [|c s IH]; simpl; [reflexivity|].
  now rewrite is_mark_upper_char, IH.
Qed.

Lemma has_mark_app (a b : string) :
  has_mark (a ++ b)%string = has_mark a || has_mark b.
Proof.
  induction a as [|c a IH]; simpl; [reflexivity|].
  now rewrite IH, orb_assoc.
Qed.

Lemma has_mark_str_exponent (e : Z) : has_mark (str_exponent e) = true.
Proof.
  unfold str_exponent. rewrite has_mark_app.
  destruct (e <? 0); reflexivity.
Qed.

(** The string form of a float holds a point or an exponent sign. *)
Lemma has_mark_str_float (x : FloatCell) : has_mark (str_float x) = true.
Proof.
  unfold str_float. rewrite has_mark_app. apply orb_true_iff. right.
  destruct ((fc_decpt x <=? -4) || (16 <? fc_decpt x)).
  - rewrite !has_mark_app, has_mark_str_exponent. now rewrite !orb_true_r.
  - destruct (fc_decpt x <=? 0).
    + reflexivity.
    + destruct (Z.of_nat _ <=? fc_decpt x);
        rewrite !has_mark_app; simpl; now rewrite ?orb_true_r.
Qed.

(** The string form of a float never uppercases to "TRUE". *)
Lemma upper_str_float (x : FloatCell) :
  (upper (str_float x) =? "TRUE")%string = false.
Proof.
  apply String.eqb_neq. intros H.
  apply (f_equal has_mark) in H.
  rewrite has_mark_upper, has_mark_str_float in H. discriminate.
Qed.

(** The decimal form of an integer never uppercases to "TRUE". *)
Lemma upper_str_int (z : Z) :
  (upper (NilZero.string_of_int (Z.to_int z)) =? "TRUE")%string = false.
Proof. destruct (Z.to_int z) as [u|u]; destruct u; reflexivity. Qed.

(** The test of the code on a loaded row, cell by cell. *)
Lemma upper_py_str_counts (x : RawFlag) :
  (upper (py_str x) =? "TRUE")%string = counts_as_heat_wave x.
Proof.
  destruct x as [s|[]|z|x|]; simpl.
  - apply upper_spells_true.
  - reflexivity.
  - reflexivity.
  - apply upper_str_int.
  - apply upper_str_float.
  - reflexivity.
Qed.

Lemma is_hw_counts (raw : RawRow) :
  is_hw (load_row raw) = counts_as_heat_wave (raw_isHW raw).
Proof. apply upper_py_str_counts. Qed.

End Flag.

(** C4.  Whatever the cell of the flag column holds (text, a boolean, an
    integer, a float, nothing), [load_data] and the test
    [isHW == "TRUE"] apply one rule to it: the string form of the cell
    ("True" and "False" for the booleans, "1" and "0" for the integers,
    "1.0" and "0.0" for the floats, "nan" for an empty cell),
    uppercased, equals "TRUE".  Under that rule the cells that count
    are the boolean true and the texts that spell "true" in any mix of
    cases; false, every integer, every float and the empty cell do not
    count.  The three aggregations over heat-wave rows count a row of
    the sheet exactly when its cell counts. *)
Theorem flag_normalization :
  (forall raw,
     is_hw (load_row raw)
     = (uppercase (py_str (raw_isHW raw)) =? "TRUE")%string)
  /\ (py_str (FlagBool true) = "True" /\ py_str (FlagBool false) = "False"
      /\ py_str (FlagInt 1) = "1" /\ py_str (FlagInt 0) = "0"
      /\ py_str (FlagFloat (mkFloatCell false (Decimal.D1 Decimal.Nil) 1)) = "1.0"
      /\ py_str (FlagFloat (mkFloatCell false (Decimal.D0 Decimal.Nil) 1)) = "0.0"
      /\ py_str FlagNaN = "nan")
  /\ (forall x,
        (uppercase (py_str x) =? "TRUE")%string = counts_as_heat_wave x)
  /\ (forall raws cid ano,
        calculate_hw_monthly (load_rows raws) cid ano
        = map (fun m =>
                 (month_name m,
                  List.length
                    (filter (fun raw =>
                               (raw_cidade raw =? cid)%string
                               && year_eq (year (load_row raw)) ano
                               && counts_as_heat_wave (raw_isHW raw)
                               && falls_in m (load_row raw)) raws)))
              calendar)
  /\ (forall raws cid,
        dias_ondas_calor (load_rows raws) cid
        = map (fun raw => dt_date (to_datetime (raw_index raw)))
              (filter (fun raw => (raw_cidade raw =? cid)%string
                                  && counts_as_heat_wave (raw_isHW raw)) raws))
  /\ (forall cidades raws,
        prepare_heatmap_data cidades (load_rows raws)
        = map (fun cy =>
                 (cy, List.length
                        (filter (fun raw =>
                                   counts_as_heat_wave (raw_isHW raw)
                                   && (raw_cidade raw =? fst cy)%string
                                   && year_eq (year (load_row raw)) (snd cy))
                                raws)))
              (list_prod cidades (Pandas.py_range 1981 2024))).
Proof.
  split; [intros raw; now rewrite uppercase_upper|].
  split; [repeat split; reflexivity|].
  split; [intros x; rewrite uppercase_upper; apply upper_py_str_counts|].
  split; [|split].
  - intros raws cid ano.
    rewrite calculate_hw_monthly_cells. apply map_ext. intros m. f_equal.
    rewrite filter_load_rows, length_load_rows. f_equal.
    apply filter_ext. intros raw. now rewrite is_hw_counts.
  - intros raws cid. unfold dias_ondas_calor.
    rewrite filter_load_rows. unfold load_rows. rewrite map_map.
    f_equal. apply filter_ext. intros raw. now rewrite is_hw_counts.
  - intros cidades raws. rewrite prepare_heatmap_data_cells.
    apply map_ext. intros cy. f_equal.
    rewrite filter_load_rows, length_load_rows. f_equal.
    apply filter_ext. intros raw. now rewrite is_hw_counts.
Qed.

(** ** The heat-wave date list *)

Section Dias.
Import Pandas PandasFacts.

Lemma ts_le_date_le (a b : Timestamp) :
  ts_le a b -> date_le (ts_date a) (ts_date b).
Proof. unfold ts_le, date_le. tauto. Qed.

Lemma StronglySorted_dates (l : list Timestamp) :
  StronglySorted ts_le l -> StronglySorted date_le (map ts_date l).
Proof.
  induction 1 as [|t l Hl IH Ht]; simpl; constructor; [exact IH|].
  rewrite Forall_map. revert Ht. apply Forall_impl.
  intros u. apply ts_le_date_le.
Qed.

Lemma In_dropna_filter {A B : Type} (f : A -> option B) (p : A -> bool)
  (l : list A) (b : B) :
  In b (dropna (map f (filter p l))) -> In b (dropna (map f l)).
Proof.
  rewrite !In_dropna, !in_map_iff.
  intros (a & H1 & H2). apply filter_In in H2. exists a. tauto.
Qed.

(** Selecting rows keeps the present cells of a column in order. *)
Lemma StronglySorted_dropna_filter {A B : Type} (R : B -> B -> Prop)
  (f : A -> option B) (p : A -> bool) (l : list A) :
  StronglySorted R (dropna (map f l)) ->
  StronglySorted R (dropna (map f (filter p l))).
Proof.
  induction l as [|a l IH]; simpl; [auto|].
  destruct (f a) as [b|] eqn:E; intros H.
  - inversion H as [|? ? Hl Hb]; subst.
    destruct (p a); simpl; [|auto].
    rewrite E. constructor; [auto|].
    apply Forall_forall. intros x Hx.
    rewrite Forall_forall in Hb. apply Hb.
    now apply In_dropna_filter in Hx.
  - destruct (p a); simpl; [rewrite E|]; auto.
Qed.

Lemma dias_ondas_calor_app (df1 df2 : Table) (cid : string) :
  dias_ondas_calor (df1 ++ df2) cid
  = dias_ondas_calor df1 cid ++ dias_ondas_calor df2 cid.
Proof. unfold dias_ondas_calor. now rewrite filter_app, map_app. Qed.

Lemma dias_ondas_calor_In (df : Table) (cid : string) (d : option Date) :
  In d (dias_ondas_calor df cid)
  <-> exists r, In r df /\ cidade r = cid /\ is_hw r = true
                /\ dt_date (index r) = d.
Proof.
  unfold dias_ondas_calor. rewrite in_map_iff. split.
  - intros (r & H1 & H2). apply filter_In in H2. destruct H2 as [H2 H3].
    apply andb_prop in H3. destruct H3 as [H3 H4].
    apply String.eqb_eq in H3. exists r. auto.
  - intros (r & H1 & H2 & H3 & H4). exists r. split; [exact H4|].
    apply filter_In. split; [exact H1|].
    apply andb_true_intro. split; [now apply String.eqb_eq | exact H3].
Qed.

Lemma dias_ondas_calor_sorted (df : Table) (cid : string) :
  StronglySorted ts_le
    (dropna (map index (filter (fun r => (cidade r =? cid)%string) df))) ->
  StronglySorted date_le (dropna (dias_ondas_calor df cid)).
Proof.
  intros H. unfold dias_ondas_calor, dt_date.
  rewrite <- (map_map index (option_map ts_date)), dropna_option_map.
  apply StronglySorted_dates.
  rewrite <- (filter_filter is_hw (fun r => (cidade r =? cid)%string)).
  now apply StronglySorted_dropna_filter.
Qed.

End Dias.

(** C5.  For every table and city, [dias_ondas_calor] returns the date of
    the timestamp (time of day dropped; a missing timestamp gives a
    missing date) of every row of the city with the heat-wave flag, in
    table order: it maps a one-row table to that date or to nothing and
    distributes over concatenation of tables.  Every returned date is the
    date of such a row.  When the timestamps of the city's rows are in
    chronological order, so are the dates returned. *)
Theorem dias_ondas_calor_dates (df : Table) (cid : string) :
  (forall r, dias_ondas_calor [r] cid
             = if (cidade r =? cid)%string && is_hw r
               then [option_map ts_date (index r)] else [])
  /\ (forall df1 df2, dias_ondas_calor (df1 ++ df2) cid
                      = dias_ondas_calor df1 cid ++ dias_ondas_calor df2 cid)
  /\ (forall d, In d (dias_ondas_calor df cid)
                <-> exists r, In r df /\ cidade r = cid /\ is_hw r = true
                              /\ option_map ts_date (index r) = d)
  /\ (StronglySorted ts_le
        (Pandas.dropna
           (map index (filter (fun r => (cidade r =? cid)%string) df))) ->
      StronglySorted date_le (Pandas.dropna (dias_ondas_calor df cid))).
Proof.
  split; [|split; [|split]].
  - intros r. unfold dias_ondas_calor. simpl.
    now destruct ((cidade r =? cid)%string && is_hw r).
  - intros df1 df2. apply dias_ondas_calor_app.
  - intros d. apply dias_ondas_calor_In.
  - apply dias_ondas_calor_sorted.
Qed.

(** ** Rows without a timestamp *)

Section Undated.
Import Pandas PandasFacts.

Lemma year_load_row_unparseable (raw : RawRow) :
  parseable raw = false -> year (load_row raw) = None.
Proof.
  unfold parseable, load_row. simpl.
  destruct (raw_index raw); [discriminate | reflexivity].
Qed.

Lemma anomalies_dff_parseable (raws : list RawRow) (cid : string) (a b : Z) :
  anomalies_dff (load_rows raws) cid a b
  = anomalies_dff (load_rows (filter parseable raws)) cid a b.
Proof.
  unfold anomalies_dff. rewrite !filter_load_rows, filter_filter.
  f_equal. apply filter_ext. intros raw.
  destruct (parseable raw) eqn:E; [reflexivity|].
  rewrite (year_load_row_unparseable raw E). simpl.
  now rewrite andb_false_r.
Qed.

Lemma hw_monthly_dff_parseable (raws : list RawRow) (cid : string) (ano : Z) :
  hw_monthly_dff (load_rows raws) cid ano
  = hw_monthly_dff (load_rows (filter parseable raws)) cid ano.
Proof.
  unfold hw_monthly_dff. rewrite !filter_load_rows, filter_filter.
  f_equal. apply filter_ext. intros raw.
  destruct (parseable raw) eqn:E; [reflexivity|].
  rewrite (year_load_row_unparseable raw E). simpl.
  now rewrite andb_false_r.
Qed.

End Undated.

(** C6, as the claim states it, fails: a heat-wave row of the city whose
    timestamp does not parse stays in the list [dias_ondas_calor]
    returns, as a missing date. *)
Lemma dias_ondas_calor_keeps_undated :
  dias_ondas_calor (load_rows [undated_row]) "Recife" = [None]
  /\ dias_ondas_calor (load_rows [undated_row]) "Recife"
     <> dias_ondas_calor (load_rows (filter parseable [undated_row])) "Recife".
Proof. split; [reflexivity | discriminate]. Qed.

(** C6, amended.  Loading a readable sheet never fails on a timestamp
    that does not parse: the row is loaded with a missing timestamp.
    Every such row is excluded from [calculate_anomalies] and from
    [calculate_hw_monthly]: their results are those on the sheet without
    these rows. *)
Theorem undated_rows_excluded (raws : list RawRow) :
  load_data (Sheet raws) = Ok (load_rows raws)
  /\ List.length (load_rows raws) = List.length raws
  /\ (forall raw, index (load_row raw) = None <-> parseable raw = false)
  /\ (forall cid ano_inicio ano_fim,
        calculate_anomalies (load_rows raws) cid ano_inicio ano_fim
        = calculate_anomalies (load_rows (filter parseable raws))
                              cid ano_inicio ano_fim)
  /\ (forall cid ano,
        calculate_hw_monthly (load_rows raws) cid ano
        = calculate_hw_monthly (load_rows (filter parseable raws)) cid ano).
Proof.
  split; [reflexivity|].
  split; [apply length_load_rows|].
  split; [|split].
  - intros raw. unfold parseable, load_row. simpl.
    destruct (raw_index raw); simpl; split; congruence.
  - intros cid a b. unfold calculate_anomalies.
    now rewrite <- anomalies_dff_parseable.
  - intros cid ano. unfold calculate_hw_monthly.
    now rewrite <- hw_monthly_dff_parseable.
Qed.

(** ** Empty selections *)

(** C7.  When the selection of an aggregation matches no row, the
    aggregation returns an empty or zero-filled result:
    [calculate_anomalies] has a NaN baseline and returns no record,
    [calculate_hw_monthly] returns twelve zero counts, [dias_ondas_calor]
    returns no date, [prepare_heatmap_data] returns a grid of zeros. *)
Theorem empty_selection (df : Table) (cidades : list string) (cid : string)
  (ano_inicio ano_fim ano : Z) :
  (anomalies_dff df cid ano_inicio ano_fim = [] ->
   anomalies_baseline df cid ano_inicio ano_fim = None
   /\ calculate_anomalies df cid ano_inicio ano_fim = [])
  /\ (hw_monthly_dff df cid ano = [] ->
      calculate_hw_monthly df cid ano
      = map (fun m => (month_name m, O)) calendar)
  /\ (filter (fun r => (cidade r =? cid)%string && is_hw r) df = [] ->
      dias_ondas_calor df cid = [])
  /\ (filter is_hw df = [] ->
      prepare_heatmap_data cidades df
      = map (fun cy => (cy, O)) (list_prod cidades (Pandas.py_range 1981 2024))).
Proof.
  split; [|split; [|split]].
  - intros H. unfold anomalies_baseline, calculate_anomalies.
    rewrite H. split; reflexivity.
  - intros H. rewrite calculate_hw_monthly_counts, H. reflexivity.
  - intros H. unfold dias_ondas_calor. now rewrite H.
  - intros H. rewrite prepare_heatmap_data_keys, H. reflexivity.
Qed.

(** ** Outcome of the loader *)

(** C8, as the claim states it, fails: on a readable sheet without rows
    [load_data] does not raise, it returns the empty table. *)
Lemma load_data_empty_sheet :
  load_data (Sheet []) = Ok []
  /\ ~ (exists e, load_data (Sheet []) = Raise e).
Proof. split; [reflexivity | intros [e H]; discriminate]. Qed.

(** C8, amended.  [load_data] raises when the resource cannot be read;
    on a readable sheet it returns a table with one row per row of the
    sheet, so the empty table on a sheet without rows. *)
Theorem load_data_outcome :
  load_data Unreadable = Raise FileNotFoundError
  /\ (forall rows, load_data (Sheet rows) = Ok (load_rows rows)
                   /\ List.length (load_rows rows) = List.length rows)
  /\ load_data (Sheet []) = Ok [].
Proof.
  split; [reflexivity|]. split; [|reflexivity].
  intros rows. split; [reflexivity | apply length_load_rows].
Qed.

(** ** The aggregations in the running process *)

Module ProcessFacts.
Import Pandas PandasFacts.
Import Process (M, State, Frame, ref, heap, g_cidades, f_rows, f_mes,
  ret, bind, deref, alloc, update, assign_mes, read_cidades,
  select_frame, select, copy, with_mes, preserves, twice).

Lemma bind_Some {A B : Type} (m : M A) (k : A -> M B) (s s' : State) (a : A) :
  m s = Some (a, s') -> bind m k s = k a s'.
Proof. unfold bind. now intros ->. Qed.

Lemma nth_error_snoc (h : list Frame) (f : Frame) :
  nth_error (h ++ [f]) (List.length h) = Some f.
Proof. rewrite nth_error_app2, Nat.sub_diag; [reflexivity | lia]. Qed.

Lemma nth_error_keep (h l : list Frame) (p : ref) (f : Frame) :
  nth_error h p = Some f -> nth_error (h ++ l) p = Some f.
Proof.
  intros H. rewrite nth_error_app1; [exact H|].
  apply nth_error_Some. congruence.
Qed.

Lemma nth_error_update_same (h : list Frame) (p : ref) (f g : Frame) :
  nth_error h p = Some g -> nth_error (update p f h) p = Some f.
Proof.
  revert p. induction h as [|x h IH]; intros [|p]; simpl; try discriminate;
    auto.
Qed.

Lemma nth_error_update_other (h : list Frame) (p q : ref) (f : Frame) :
  p <> q -> nth_error (update q f h) p = nth_error h p.
Proof.
  revert p q. induction h as [|x h IH]; intros [|p] [|q] H; simpl; auto;
    try congruence.
Qed.

Lemma preserves_refl (s : State) : preserves s s.
Proof. split; auto. Qed.

Lemma preserves_trans (s1 s2 s3 : State) :
  preserves s1 s2 -> preserves s2 s3 -> preserves s1 s3.
Proof.
  intros [H1 H2] [H3 H4]. split; [congruence | auto].
Qed.

Lemma deref_Some (s : State) (p : ref) (f : Frame) :
  nth_error (heap s) p = Some f -> deref p s = Some (f, s).
Proof. unfold deref. now intros ->. Qed.

Lemma preserves_alloc (s : State) (f : Frame) :
  preserves s {| heap := heap s ++ [f]; g_cidades := g_cidades s |}.
Proof. split; simpl; [reflexivity|]. intros p g. apply nth_error_keep. Qed.

(** A selection allocates one frame and returns a reference to it. *)
Lemma select_Some (mask : Row -> bool) (s : State) (p : ref) (f : Frame) :
  nth_error (heap s) p = Some f ->
  exists s', select mask p s = Some (List.length (heap s), s')
             /\ preserves s s'
             /\ List.length (heap s') = S (List.length (heap s))
             /\ nth_error (heap s') (List.length (heap s))
                = Some (select_frame mask f).
Proof.
  intros H. eexists. unfold select.
  rewrite (bind_Some _ _ _ _ _ (deref_Some s p f H)).
  unfold alloc. split; [reflexivity|]. split; [apply preserves_alloc|].
  simpl. split; [rewrite length_app; simpl; lia | apply nth_error_snoc].
Qed.

Lemma copy_Some (s : State) (p : ref) (f : Frame) :
  nth_error (heap s) p = Some f ->
  exists s', copy p s = Some (List.length (heap s), s')
             /\ preserves s s'
             /\ nth_error (heap s') (List.length (heap s)) = Some f.
Proof.
  intros H. eexists. unfold copy.
  rewrite (bind_Some _ _ _ _ _ (deref_Some s p f H)).
  unfold alloc. split; [reflexivity|]. split; [apply preserves_alloc|].
  apply nth_error_snoc.
Qed.

(** Assigning the column of the frame at [q] leaves every other object
    as it was. *)
Lemma assign_mes_Some (s : State) (q : ref) (f : Frame)
  (col : list (option string)) :
  nth_error (heap s) q = Some f ->
  exists s', assign_mes q col s = Some (tt, s')
             /\ g_cidades s' = g_cidades s
             /\ (forall p, p <> q -> nth_error (heap s') p = nth_error (heap s) p)
             /\ nth_error (heap s') q
                = Some {| f_rows := f_rows f; f_mes := Some col |}.
Proof.
  intros H. eexists. unfold assign_mes. rewrite H.
  split; [reflexivity|]. simpl. split; [reflexivity|]. split.
  - intros p Hp. now apply nth_error_update_other.
  - now apply nth_error_update_same with (g := f).
Qed.

Lemma combine_map {A B : Type} (f : A -> B) (l : list A) :
  combine l (map f l) = map (fun a => (a, f a)) l.
Proof. induction l; simpl; congruence. Qed.

(** Grouping a frame by an assigned column is grouping its rows by the
    value the column was computed from. *)
Lemma groupby_size_assigned {K : Type} (eqb leb : K -> K -> bool)
  (key : Row -> option K) (rows : list Row) :
  groupby_size eqb leb snd (combine rows (map key rows))
  = groupby_size eqb leb key rows.
Proof.
  unfold groupby_size, groupby. rewrite combine_map, !map_map.
  cbn [fst snd]. apply map_ext. intros k. f_equal.
  rewrite (filter_map_comm (fun a => (a, key a))
                           (fun rc => key_is eqb k (snd rc))).
  apply length_map.
Qed.

Section Runs.
Variable df : ref.
Variable fr : Frame.

Lemma run_calculate_anomalies (cid : string) (a b : Z) (s : State) :
  nth_error (heap s) df = Some fr ->
  exists s', Process.calculate_anomalies df cid a b s
             = Some (calculate_anomalies (f_rows fr) cid a b, s')
             /\ preserves s s'.
Proof.
  intros H.
  destruct (select_Some (fun r => (cidade r =? cid)%string
                                  && year_ge (year r) a
                                  && year_le (year r) b) s df fr H)
    as (s1 & Hsel & Hp & _ & Hnth).
  exists s1. unfold Process.calculate_anomalies.
  rewrite (bind_Some _ _ _ _ _ Hsel).
  rewrite (bind_Some _ _ _ _ _ (deref_Some _ _ _ Hnth)).
  split; [reflexivity | exact Hp].
Qed.

Lemma run_dias_ondas_calor (cid : string) (s : State) :
  nth_error (heap s) df = Some fr ->
  exists s', Process.dias_ondas_calor df cid s
             = Some (dias_ondas_calor (f_rows fr) cid, s')
             /\ preserves s s'.
Proof.
  intros H.
  destruct (select_Some (fun r => (cidade r =? cid)%string && is_hw r)
                        s df fr H)
    as (s1 & Hsel & Hp & _ & Hnth).
  exists s1. unfold Process.dias_ondas_calor.
  rewrite (bind_Some _ _ _ _ _ Hsel).
  rewrite (bind_Some _ _ _ _ _ (deref_Some _ _ _ Hnth)).
  split; [reflexivity | exact Hp].
Qed.

Lemma run_prepare_heatmap_data (s : State) :
  nth_error (heap s) df = Some fr ->
  exists s', Process.prepare_heatmap_data df s
             = Some (prepare_heatmap_data (g_cidades s) (f_rows fr), s')
             /\ preserves s s'.
Proof.
  intros H.
  destruct (select_Some is_hw s df fr H) as (s1 & Hsel & Hp & _ & Hnth).
  exists s1. unfold Process.prepare_heatmap_data.
  rewrite (bind_Some _ _ _ _ _ Hsel).
  rewrite (bind_Some _ _ _ _ _ (deref_Some _ _ _ Hnth)).
  unfold bind, read_cidades, ret. destruct Hp as [Hc Hp].
  rewrite Hc. split; [reflexivity | split; assumption].
Qed.

Lemma run_calculate_hw_monthly (cid : string) (ano : Z) (s : State) :
  nth_error (heap s) df = Some fr ->
  exists s', Process.calculate_hw_monthly df cid ano s
             = Some (calculate_hw_monthly (f_rows fr) cid ano, s')
             /\ preserves s s'.
Proof.
  intros H.
  destruct (select_Some (fun r => (cidade r =? cid)%string
                                  && year_eq (year r) ano
                                  && is_hw r) s df fr H)
    as (s1 & Hsel & Hp1 & Hlen & Hnth1).
  destruct (copy_Some s1 _ _ Hnth1) as (s2 & Hcopy & Hp2 & Hnth2).
  destruct (assign_mes_Some s2 _ _
              (map mes (filter (fun r => (cidade r =? cid)%string
                                         && year_eq (year r) ano
                                         && is_hw r) (f_rows fr))) Hnth2)
    as (s3 & Hass & Hc3 & Hother & Hnth3).
  exists s3. unfold Process.calculate_hw_monthly.
  rewrite (bind_Some _ _ _ _ _ Hsel).
  rewrite (bind_Some _ _ _ _ _ Hcopy).
  rewrite (bind_Some _ _ _ _ _ (deref_Some _ _ _ Hnth2)).
  cbn [f_rows select_frame].
  rewrite (bind_Some _ _ _ _ _ Hass).
  rewrite (bind_Some _ _ _ _ _ (deref_Some _ _ _ Hnth3)).
  unfold ret, with_mes. cbn [f_rows f_mes select_frame].
  rewrite groupby_size_assigned. split; [reflexivity|].
  destruct Hp1 as [Hc1 Hp1], Hp2 as [Hc2 Hp2].
  split; [congruence|]. intros p f Hpf.
  assert (Hlt : (p < List.length (heap s))%nat)
    by (apply nth_error_Some; congruence).
  rewrite Hother by lia. auto.
Qed.

End Runs.

(** An invocation that returns [out] and preserves the objects whenever
    the invariant [I] holds, [I] being stable under preservation, can be
    repeated with the same result. *)
Lemma twice_intro {A : Type} (m : M A) (out : A) (I : State -> Prop) :
  (forall s, I s -> exists s', m s = Some (out, s') /\ preserves s s') ->
  (forall s s', I s -> preserves s s' -> I s') ->
  forall s, I s -> twice m s out.
Proof.
  intros Hrun Hstable s Hs.
  destruct (Hrun s Hs) as (s1 & H1 & Hp1).
  destruct (Hrun s1 (Hstable s s1 Hs Hp1)) as (s2 & H2 & Hp2).
  exists s1, s2. repeat split; try assumption;
    try apply (preserves_trans s s1 s2 Hp1 Hp2);
    try apply Hp1.
Qed.

Lemma table_stable (df : ref) (fr : Frame) (s s' : State) :
  nth_error (heap s) df = Some fr -> preserves s s' ->
  nth_error (heap s') df = Some fr.
Proof. intros H [_ Hp]. auto. Qed.

End ProcessFacts.

(** C9.  With the table at reference [df] of the object store, each of
    the four aggregations, invoked twice in succession with the same
    arguments, returns the same output both times, namely the value the
    aggregation function has on the rows of the table, and after each
    invocation the table and every other object that existed before are
    unchanged, as is [cidades]. *)
Theorem aggregations_deterministic (s : Process.State) (df : Process.ref)
  (fr : Process.Frame) (cid : string) (ano_inicio ano_fim ano : Z) :
  nth_error (Process.heap s) df = Some fr ->
  Process.twice (Process.calculate_anomalies df cid ano_inicio ano_fim) s
    (calculate_anomalies (Process.f_rows fr) cid ano_inicio ano_fim)
  /\ Process.twice (Process.calculate_hw_monthly df cid ano) s
       (calculate_hw_monthly (Process.f_rows fr) cid ano)
  /\ Process.twice (Process.dias_ondas_calor df cid) s
       (dias_ondas_calor (Process.f_rows fr) cid)
  /\ Process.twice (Process.prepare_heatmap_data df) s
       (prepare_heatmap_data (Process.g_cidades s) (Process.f_rows fr)).
Proof.
  intros H. split; [|split; [|split]].
  - apply (ProcessFacts.twice_intro _ _
             (fun s => nth_error (Process.heap s) df = Some fr)); [| |exact H].
    + intros s0. apply ProcessFacts.run_calculate_anomalies.
    + intros s0 s1. apply ProcessFacts.table_stable.
  - apply (ProcessFacts.twice_intro _ _
             (fun s => nth_error (Process.heap s) df = Some fr)); [| |exact H].
    + intros s0. apply ProcessFacts.run_calculate_hw_monthly.
    + intros s0 s1. apply ProcessFacts.table_stable.
  - apply (ProcessFacts.twice_intro _ _
             (fun s => nth_error (Process.heap s) df = Some fr)); [| |exact H].
    + intros s0. apply ProcessFacts.run_dias_ondas_calor.
    + intros s0 s1. apply ProcessFacts.table_stable.
  - apply (ProcessFacts.twice_intro _ _
             (fun s0 => nth_error (Process.heap s0) df = Some fr
                        /\ Process.g_cidades s0 = Process.g_cidades s));
      [| |split; [exact H | reflexivity]].
    + intros s0 [H0 <-]. now apply ProcessFacts.run_prepare_heatmap_data.
    + intros s0 s1 [H0 Hc] Hp. split.
      * exact (ProcessFacts.table_stable df fr s0 s1 H0 Hp).
      * destruct Hp as [Hp _]. congruence.
Qed.

Lemma aggregations_deterministic_witness :
  nth_error (Process.heap sample_state) 0
  = Some {| Process.f_rows := load_rows sample_sheet; Process.f_mes := None |}
  /\ Process.twice (Process.calculate_hw_monthly 0%nat "Recife" 2020)
       sample_state
       (calculate_hw_monthly (load_rows sample_sheet) "Recife" 2020).
Proof.
  split; [reflexivity|].
  apply (aggregations_deterministic sample_state 0%nat
           {| Process.f_rows := load_rows sample_sheet; Process.f_mes := None |}
           "Recife" 2000 2030 2020).
  reflexivity.
Defined.

(** ** Anomalies are not centred *)

(** C10.  There is a table, a city and a year range for which the
    anomalies [calculate_anomalies] returns are all defined and do not
    add up to zero: the baseline weighs every row alike, so a year with
    more rows weighs more.  (On the sample sheet Recife has three rows in
    2020, of mean 27, and one row in 2021, of 25; the baseline is 26.5
    and the anomalies are 0.5 and -1.5.) *)
Theorem anomalies_not_centred :
  exists (df : Table) (cid : string) (ano_inicio ano_fim : Z) (vals : list Q),
    map an_year (calculate_anomalies df cid ano_inicio ano_fim) = [2020; 2021]
    /\ map an_anomalia (calculate_anomalies df cid ano_inicio ano_fim)
       = map Some vals
    /\ ~ (Pandas.Qsum vals == 0)%Q.
Proof.
  exists (load_rows sample_sheet), "Recife", 2000, 2030.
  exists (Pandas.dropna
            (map an_anomalia
                 (calculate_anomalies (load_rows sample_sheet) "Recife" 2000 2030))).
  split; [reflexivity|]. split; [reflexivity|].
  vm_compute. discriminate.
Qed.

(** ** The properties at the sample data *)

Lemma dias_ondas_calor_dates_witness :
  StronglySorted ts_le
    (Pandas.dropna
       (map index (filter (fun r => (cidade r =? "Recife")%string)
                          (load_rows sample_sheet))))
  /\ StronglySorted date_le
       (Pandas.dropna (dias_ondas_calor (load_rows sample_sheet) "Recife")).
Proof.
  assert (H : StronglySorted ts_le
                (Pandas.dropna
                   (map index (filter (fun r => (cidade r =? "Recife")%string)
                                      (load_rows sample_sheet))))).
  { repeat constructor; unfold ts_le, date_lt; simpl; lia. }
  split; [exact H|].
  destruct (dias_ondas_calor_dates (load_rows sample_sheet) "Recife")
    as (_ & _ & _ & Hsorted).
  exact (Hsorted H).
Defined.

Lemma empty_selection_witness :
  anomalies_baseline (load_rows calm_sheet) "Manaus" 1981 2023 = None
  /\ calculate_anomalies (load_rows calm_sheet) "Manaus" 1981 2023 = []
  /\ calculate_hw_monthly (load_rows calm_sheet) "Manaus" 2019
     = map (fun m => (month_name m, O)) calendar
  /\ dias_ondas_calor (load_rows calm_sheet) "Manaus" = []
  /\ prepare_heatmap_data ["Recife"] (load_rows calm_sheet)
     = map (fun cy => (cy, O)) (list_prod ["Recife"] (Pandas.py_range 1981 2024)).
Proof.
  destruct (empty_selection (load_rows calm_sheet) ["Recife"] "Manaus"
                            1981 2023 2019)
    as (H1 & H2 & H3 & H4).
  destruct (H1 eq_refl) as [Hb Ha].
  split; [exact Hb|]. split; [exact Ha|].
  split; [exact (H2 eq_refl)|].
  split; [exact (H3 eq_refl) | exact (H4 eq_refl)].
Defined.

(** * The module body and the callbacks *)

(** ** Facts about the builtins *)

Module PythonFacts.
Import Python.

Lemma bind_Done {A B : Type} (m : outcome A) (k : A -> outcome B) (a : A) :
  m = Done a -> bind m k = k a.
Proof. now intros ->. Qed.

Lemma bind_inv {A B : Type} (m : outcome A) (k : A -> outcome B) (b : B) :
  bind m k = Done b -> exists a, m = Done a /\ k a = Done b.
Proof. destruct m as [a|e]; simpl; [eauto | discriminate]. Qed.

Section Best.
Context {A : Type}.
Variable better : A -> A -> outcome bool.
Variable lt : A -> A -> bool.
Variable D : A -> Prop.
Hypothesis better_lt : forall x y, D x -> D y -> better x y = Done (lt x y).
Hypothesis lt_irrefl : forall x, lt x x = false.
Hypothesis lt_trans :
  forall x y z, lt x y = true -> lt y z = true -> lt x z = true.

Lemma lt_below (v b x : A) :
  lt v b = true -> lt x b = false -> lt x v = false.
Proof.
  intros Hv Hx. destruct (lt x v) eqn:E; [|reflexivity].
  rewrite (lt_trans x v b E Hv) in Hx. discriminate.
Qed.

(** The loop ends on an item of the list that no item is better than. *)
Lemma best_of_spec (l : list A) :
  forall best, D best -> Forall D l ->
  exists m, best_of better best l = Done m
            /\ In m (best :: l)
            /\ (m = best \/ lt m best = true)
            /\ forall x, In x l -> lt x m = false.
Proof.
  induction l as [|v l IH]; intros best Hb Hl.
  - exists best. simpl. repeat split; auto. intros x [].
  - inversion Hl as [|? ? Hv Hl']; subst. simpl.
    rewrite (better_lt v best Hv Hb). simpl.
    destruct (lt v best) eqn:E.
    + destruct (IH v Hv Hl') as (m & Hm & Hin & Hrel & Hall).
      exists m. split; [exact Hm|]. split; [simpl in *; tauto|]. split.
      * right. destruct Hrel as [->|Hrel]; [exact E|].
        exact (lt_trans m v best Hrel E).
      * intros x [Hx|Hx]; [subst x|auto].
        destruct Hrel as [->|Hrel]; [apply lt_irrefl|].
        destruct (lt v m) eqn:E'; [|reflexivity].
        pose proof (lt_trans v m v E' Hrel) as H. rewrite lt_irrefl in H.
        discriminate.
    + destruct (IH best Hb Hl') as (m & Hm & Hin & Hrel & Hall).
      exists m. split; [exact Hm|]. split; [simpl in *; tauto|].
      split; [exact Hrel|].
      intros x [Hx|Hx]; [subst x|auto].
      destruct Hrel as [->|Hrel]; [exact E|].
      exact (lt_below m best v Hrel E).
Qed.

Lemma best_of_least (l : list A) (x0 : A) :
  D x0 -> Forall D l ->
  exists m, best_of better x0 l = Done m
            /\ In m (x0 :: l)
            /\ forall x, In x (x0 :: l) -> lt x m = false.
Proof.
  intros H0 Hl.
  destruct (best_of_spec l x0 H0 Hl) as (m & Hm & Hin & Hrel & Hall).
  exists m. split; [exact Hm|]. split; [exact Hin|].
  intros x [Hx|Hx]; [subst x|auto].
  destruct Hrel as [->|Hrel]; [apply lt_irrefl|].
  destruct (lt x0 m) eqn:E; [|reflexivity].
  pose proof (lt_trans x0 m x0 E Hrel) as H. rewrite lt_irrefl in H.
  discriminate.
Qed.

End Best.

Lemma item_last_app {A : Type} (l : list A) (x : A) :
  item_last (l ++ [x]) = Done x.
Proof. unfold item_last. now rewrite rev_unit. Qed.

Lemma item_last_nonempty {A : Type} (l : list A) :
  l <> [] -> exists l' x, l = l' ++ [x] /\ item_last l = Done x.
Proof.
  intros H. destruct (exists_last H) as (l' & x & ->).
  exists l', x. split; [reflexivity | apply item_last_app].
Qed.

End PythonFacts.

(** ** Facts about the comparisons *)

Module OrderFacts.

Lemma month_number_inj (a b : Month) : month_number a = month_number b -> a = b.
Proof. destruct a, b; simpl; intros H; try reflexivity; discriminate. Qed.

Lemma Month_eqb_number (a b : Month) :
  Month_eqb a b = (month_number a =? month_number b).
Proof. destruct a, b; reflexivity. Qed.

Lemma Month_eqb_eq (a b : Month) : Month_eqb a b = true <-> a = b.
Proof.
  rewrite Month_eqb_number, Z.eqb_eq. split; [apply month_number_inj|].
  now intros ->.
Qed.

Lemma date_eqb_eq (a b : Date) : date_eqb a b = true <-> a = b.
Proof.
  destruct a as [y m d], b as [y' m' d']. unfold date_eqb. simpl.
  rewrite !andb_true_iff, !Z.eqb_eq, Month_eqb_eq.
  split; [intros [[-> ->] ->]; reflexivity | intros H; inversion H; auto].
Qed.

(** The order of dates is the lexicographic order of (year, month
    number, day). *)
Lemma date_ltb_spec (a b : Date) :
  date_ltb a b = true
  <-> d_year a < d_year b
      \/ (d_year a = d_year b
          /\ (month_number (d_month a) < month_number (d_month b)
              \/ (month_number (d_month a) = month_number (d_month b)
                  /\ d_day a < d_day b))).
Proof.
  unfold date_ltb.
  rewrite !orb_true_iff, !andb_true_iff, !orb_true_iff, !andb_true_iff.
  rewrite Month_eqb_number, !Z.ltb_lt, !Z.eqb_eq. tauto.
Qed.

Lemma date_ltb_lt (a b : Date) : date_ltb a b = true <-> date_lt a b.
Proof.
  rewrite date_ltb_spec. unfold date_lt.
  split; intros [H|[H [H'|[H' H'']]]]; auto.
  - apply month_number_inj in H'. auto.
  - rewrite H'. auto.
Qed.

Lemma date_ltb_irrefl (a : Date) : date_ltb a a = false.
Proof.
  destruct (date_ltb a a) eqn:E; [|reflexivity].
  apply date_ltb_spec in E. lia.
Qed.

Lemma date_ltb_trans (a b c : Date) :
  date_ltb a b = true -> date_ltb b c = true -> date_ltb a c = true.
Proof. rewrite !date_ltb_spec. lia. Qed.

Lemma date_ltb_false_le (a b : Date) : date_ltb a b = false -> date_le b a.
Proof.
  intros H. unfold date_le.
  destruct (date_ltb b a) eqn:E; [left; now apply date_ltb_lt|].
  right.
  assert (Ha : ~ (date_ltb a b = true)) by congruence.
  assert (Hb : ~ (date_ltb b a = true)) by congruence.
  rewrite date_ltb_spec in Ha, Hb.
  destruct a as [y m d], b as [y' m' d']. simpl in *.
  assert (y = y') by lia.
  assert (month_number m = month_number m') by lia.
  assert (d = d') by lia.
  f_equal; auto using month_number_inj.
Qed.

Lemma ts_ltb_spec (a b : Timestamp) :
  ts_ltb a b = true
  <-> date_ltb (ts_date a) (ts_date b) = true
      \/ (ts_date a = ts_date b /\ ts_time a < ts_time b).
Proof.
  unfold ts_ltb. now rewrite orb_true_iff, andb_true_iff, date_eqb_eq, Z.ltb_lt.
Qed.

Lemma ts_ltb_irrefl (a : Timestamp) : ts_ltb a a = false.
Proof.
  destruct (ts_ltb a a) eqn:E; [|reflexivity].
  apply ts_ltb_spec in E. rewrite date_ltb_irrefl in E.
  destruct E as [E|[_ E]]; [discriminate | lia].
Qed.

Lemma ts_ltb_trans (a b c : Timestamp) :
  ts_ltb a b = true -> ts_ltb b c = true -> ts_ltb a c = true.
Proof.
  rewrite !ts_ltb_spec. intros [H|[H H']] [G|[G G']].
  - left. eapply date_ltb_trans; eassumption.
  - left. now rewrite <- G.
  - left. now rewrite H.
  - right. split; [congruence | lia].
Qed.

Lemma ts_ltb_false_le (a b : Timestamp) : ts_ltb a b = false -> ts_le b a.
Proof.
  intros H. unfold ts_le.
  assert (Ha : ~ (ts_ltb a b = true)) by congruence.
  rewrite ts_ltb_spec in Ha.
  destruct (date_ltb a.(ts_date) b.(ts_date)) eqn:E; [tauto|].
  destruct (date_ltb_false_le _ _ E) as [Hlt|Heq]; [now left|].
  right. split; [exact Heq|].
  assert (~ ts_time a < ts_time b) by (intros Hc; apply Ha; right; auto).
  lia.
Qed.

Section Cells.
Context {T : Type}.
Variable ltb : T -> T -> bool.
Hypothesis ltb_irrefl : forall x, ltb x x = false.
Hypothesis ltb_trans :
  forall x y z, ltb x y = true -> ltb y z = true -> ltb x z = true.

Lemma cell_ltb_irrefl (a : option T) : cell_ltb ltb a a = false.
Proof. destruct a; simpl; auto. Qed.

Lemma cell_ltb_trans (a b c : option T) :
  cell_ltb ltb a b = true -> cell_ltb ltb b c = true ->
  cell_ltb ltb a c = true.
Proof.
  destruct a, b, c; simpl; try discriminate. apply ltb_trans.
Qed.

Lemma cell_gtb_trans (a b c : option T) :
  cell_ltb ltb b a = true -> cell_ltb ltb c b = true ->
  cell_ltb ltb c a = true.
Proof. intros H G. exact (cell_ltb_trans c b a G H). Qed.

End Cells.

Lemma Z_ltb_irrefl (x : Z) : (x <? x) = false.
Proof. apply Z.ltb_irrefl. Qed.

Lemma Z_ltb_trans (x y z : Z) :
  (x <? y) = true -> (y <? z) = true -> (x <? z) = true.
Proof. rewrite !Z.ltb_lt. lia. Qed.

Lemma string_compare_trans (a b c : string) :
  String.compare a b <> Gt -> String.compare b c <> Gt ->
  String.compare a c <> Gt.
Proof.
  revert b c. induction a as [|x a IH]; intros [|y b] [|z c]; simpl;
    try congruence.
  unfold Ascii.compare.
  destruct (N.compare_spec (N_of_ascii x) (N_of_ascii y)) as [E|E|E];
    destruct (N.compare_spec (N_of_ascii y) (N_of_ascii z)) as [F|F|F];
    try congruence; intros H G.
  - rewrite E, F, N.compare_refl. now apply (IH b c).
  - assert (L : (N_of_ascii x < N_of_ascii z)%N) by lia.
    apply N.compare_lt_iff in L. rewrite L. discriminate.
  - assert (L : (N_of_ascii x < N_of_ascii z)%N) by lia.
    apply N.compare_lt_iff in L. rewrite L. discriminate.
  - assert (L : (N_of_ascii x < N_of_ascii z)%N) by lia.
    apply N.compare_lt_iff in L. rewrite L. discriminate.
Qed.

Lemma string_leb_trans (a b c : string) :
  String.leb a b = true -> String.leb b c = true -> String.leb a c = true.
Proof.
  unfold String.leb. intros H G.
  pose proof (string_compare_trans a b c) as T.
  destruct (String.compare a b), (String.compare b c),
    (String.compare a c); try reflexivity; try discriminate;
    exfalso; apply T; congruence.
Qed.

End OrderFacts.

(** ** Start-up *)

Module StartupFacts.
Import Pandas PandasFacts PythonFacts OrderFacts.

Lemma year_cell_eqb_eq (a b : option Z) : year_cell_eqb a b = true <-> a = b.
Proof.
  destruct a, b; simpl; try rewrite Z.eqb_eq;
    split; intros H; congruence.
Qed.

Lemma parseable_index (raw : RawRow) :
  is_present (index (load_row raw)) = parseable raw.
Proof. unfold parseable, load_row. simpl. now destruct (raw_index raw). Qed.

Lemma parseable_year (raw : RawRow) :
  is_present (year (load_row raw)) = parseable raw.
Proof. unfold parseable, load_row. simpl. now destruct (raw_index raw). Qed.

Lemma NoDup_dropna {A : Type} (l : list (option A)) :
  NoDup l -> NoDup (dropna l).
Proof.
  induction 1 as [|[a|] l Hx Hl IH]; simpl; [constructor| |exact IH].
  constructor; [|exact IH]. now rewrite In_dropna.
Qed.

Lemma forallb_present_map_Some {A : Type} (l : list (option A)) :
  forallb is_present l = true -> l = map Some (dropna l).
Proof.
  induction l as [|[a|] l IH]; simpl; intros H; try discriminate;
    [reflexivity|]. f_equal. auto.
Qed.

Lemma In_year_cells (df : Table) (c : option Z) :
  In c (year_cells df) <-> exists r, In r df /\ year r = c.
Proof.
  unfold year_cells. rewrite (In_unique year_cell_eqb year_cell_eqb_eq).
  rewrite in_map_iff. split; intros (r & H1 & H2); exists r; auto.
Qed.

Lemma year_cells_present (rows : list RawRow) :
  forallb is_present (year_cells (load_rows rows)) = forallb parseable rows.
Proof.
  apply eq_true_iff_eq. rewrite !forallb_forall. split.
  - intros H raw Hraw. rewrite <- parseable_year. apply H.
    apply In_year_cells. exists (load_row raw). split; [|reflexivity].
    unfold load_rows. now apply in_map.
  - intros H c Hc. apply In_year_cells in Hc. destruct Hc as (r & Hr & <-).
    unfold load_rows in Hr. apply in_map_iff in Hr.
    destruct Hr as (raw & <- & Hraw). rewrite parseable_year. now apply H.
Qed.

Lemma anos_of_present (df : Table) :
  forallb is_present (year_cells df) = true ->
  anos_of df = map Some (anos_years df).
Proof. unfold anos_of, anos_years. now intros ->. Qed.

Lemma forallb_present_false {A : Type} (l : list (option A)) :
  forallb is_present l = false -> In None l.
Proof.
  induction l as [|[a|] l IH]; simpl; intros H; try discriminate; auto.
Qed.

Lemma anos_of_missing (df : Table) :
  forallb is_present (year_cells df) = false ->
  anos_of df = year_cells df /\ In None (year_cells df).
Proof.
  intros H. unfold anos_of. rewrite H.
  split; [reflexivity | now apply forallb_present_false].
Qed.

Lemma anos_years_increasing (df : Table) : StronglySorted Z.lt (anos_years df).
Proof.
  apply StronglySorted_leb_lt.
  - apply sorted_StronglySorted.
    + intros x y. rewrite !Z.leb_le. lia.
    + intros x y z. rewrite !Z.leb_le. lia.
  - apply NoDup_sorted, NoDup_dropna.
    apply (NoDup_unique year_cell_eqb year_cell_eqb_eq).
Qed.

Lemma In_anos_years (df : Table) (y : Z) :
  In y (anos_years df) <-> exists r, In r df /\ year r = Some y.
Proof.
  unfold anos_years. now rewrite In_sorted, In_dropna, In_year_cells.
Qed.

(** [min] and [max] with comparisons that do not raise return an item
    of a list that is not empty. *)
Lemma py_min_total {A : Type} (ltb : A -> A -> bool) (x : A) (l : list A) :
  (forall a, ltb a a = false) ->
  (forall a b c, ltb a b = true -> ltb b c = true -> ltb a c = true) ->
  exists m, py_min (fun a b => Done (ltb a b)) (x :: l) = Done m
            /\ In m (x :: l)
            /\ forall a, In a (x :: l) -> ltb a m = false.
Proof.
  intros Hirr Htr. unfold py_min.
  apply (best_of_least (fun a b => Done (ltb a b)) ltb (fun _ => True));
    auto.
  apply Forall_forall. intros a _. exact I.
Qed.

Lemma py_max_total {A : Type} (ltb : A -> A -> bool) (x : A) (l : list A) :
  (forall a, ltb a a = false) ->
  (forall a b c, ltb a b = true -> ltb b c = true -> ltb a c = true) ->
  exists m, py_max (fun a b => Done (ltb b a)) (x :: l) = Done m
            /\ In m (x :: l)
            /\ forall a, In a (x :: l) -> ltb m a = false.
Proof.
  intros Hirr Htr. unfold py_max.
  apply (best_of_least (fun a b => Done (ltb b a)) (fun a b => ltb b a)
                       (fun _ => True)); auto.
  - intros a b c H G. exact (Htr c b a G H).
  - apply Forall_forall. intros a _. exact I.
Qed.

Lemma py_min_year (y0 : Z) (ys : list Z) :
  exists lo, py_min year_lt (map Some (y0 :: ys)) = Done (Some lo)
             /\ In lo (y0 :: ys)
             /\ forall y, In y (y0 :: ys) -> lo <= y.
Proof.
  destruct (py_min_total (cell_ltb Z.ltb) (Some y0) (map Some ys)
              (cell_ltb_irrefl Z.ltb Z_ltb_irrefl)
              (cell_ltb_trans Z.ltb Z_ltb_trans))
    as (m & Hm & Hin & Hall).
  change (Some y0 :: map Some ys) with (map Some (y0 :: ys)) in *.
  apply in_map_iff in Hin. destruct Hin as (lo & <- & Hlo).
  exists lo. split; [exact Hm|]. split; [exact Hlo|].
  intros y Hy. specialize (Hall (Some y) (in_map Some _ _ Hy)).
  simpl in Hall. apply Z.ltb_ge in Hall. exact Hall.
Qed.

Lemma py_max_year (y0 : Z) (ys : list Z) :
  exists hi, py_max year_gt (map Some (y0 :: ys)) = Done (Some hi)
             /\ In hi (y0 :: ys)
             /\ forall y, In y (y0 :: ys) -> y <= hi.
Proof.
  destruct (py_max_total (cell_ltb Z.ltb) (Some y0) (map Some ys)
              (cell_ltb_irrefl Z.ltb Z_ltb_irrefl)
              (cell_ltb_trans Z.ltb Z_ltb_trans))
    as (m & Hm & Hin & Hall).
  change (Some y0 :: map Some ys) with (map Some (y0 :: ys)) in *.
  apply in_map_iff in Hin. destruct Hin as (hi & <- & Hhi).
  exists hi. split; [exact Hm|]. split; [exact Hhi|].
  intros y Hy. specialize (Hall (Some y) (in_map Some _ _ Hy)).
  simpl in Hall. apply Z.ltb_ge in Hall. exact Hall.
Qed.

Lemma py_min_index (t0 : Timestamp) (ts : list Timestamp) :
  exists t, py_min index_lt (map Some (t0 :: ts)) = Done (Some t)
            /\ In t (t0 :: ts)
            /\ forall u, In u (t0 :: ts) -> ts_le t u.
Proof.
  destruct (py_min_total (cell_ltb ts_ltb) (Some t0) (map Some ts)
              (cell_ltb_irrefl ts_ltb ts_ltb_irrefl)
              (cell_ltb_trans ts_ltb ts_ltb_trans))
    as (m & Hm & Hin & Hall).
  change (Some t0 :: map Some ts) with (map Some (t0 :: ts)) in *.
  apply in_map_iff in Hin. destruct Hin as (t & <- & Ht).
  exists t. split; [exact Hm|]. split; [exact Ht|].
  intros u Hu. specialize (Hall (Some u) (in_map Some _ _ Hu)).
  simpl in Hall. now apply ts_ltb_false_le.
Qed.

Lemma py_max_index (t0 : Timestamp) (ts : list Timestamp) :
  exists t, py_max index_gt (map Some (t0 :: ts)) = Done (Some t)
            /\ In t (t0 :: ts)
            /\ forall u, In u (t0 :: ts) -> ts_le u t.
Proof.
  destruct (py_max_total (cell_ltb ts_ltb) (Some t0) (map Some ts)
              (cell_ltb_irrefl ts_ltb ts_ltb_irrefl)
              (cell_ltb_trans ts_ltb ts_ltb_trans))
    as (m & Hm & Hin & Hall).
  change (Some t0 :: map Some ts) with (map Some (t0 :: ts)) in *.
  apply in_map_iff in Hin. destruct Hin as (t & <- & Ht).
  exists t. split; [exact Hm|]. split; [exact Ht|].
  intros u Hu. specialize (Hall (Some u) (in_map Some _ _ Hu)).
  simpl in Hall. now apply ts_ltb_false_le.
Qed.

(** The comprehension of the slider marks. *)
Lemma marks_present (ys : list Z) :
  comprehension (fun a => k <-- py_int a ;; Done (k, str_year a)) (map Some ys)
  = Done (map (fun y => (y, str_int y)) ys).
Proof.
  induction ys as [|y ys IH]; simpl; [reflexivity|]. now rewrite IH.
Qed.

Lemma marks_missing (l : list (option Z)) :
  In None l ->
  comprehension (fun a => k <-- py_int a ;; Done (k, str_year a)) l
  = Failed ValueError.
Proof.
  induction l as [|[y|] l IH]; simpl; intros H; try tauto.
  destruct H as [H|H]; [discriminate|]. now rewrite (IH H).
Qed.

Lemma StronglySorted_last_greatest (l : list Z) (x : Z) :
  StronglySorted Z.lt (l ++ [x]) -> forall y, In y (l ++ [x]) -> y <= x.
Proof.
  induction l as [|a l IH]; simpl; intros H y Hy.
  - destruct Hy as [<-|[]]. lia.
  - inversion H as [|? ? Hs Ha]; subst. destruct Hy as [<-|Hy]; [|auto].
    rewrite Forall_forall in Ha. assert (a < x); [|lia].
    apply Ha. apply in_or_app. right. now left.
Qed.

Lemma startup_run (rows : list RawRow) :
  rows <> [] -> forallb parseable rows = true ->
  exists lo hi c0 t0 t1,
    layout_facts (load_rows rows) lo hi c0 t0 t1
    /\ startup (Sheet rows)
       = Done {| st_df := load_rows rows;
                 st_cidades := cidades_of (load_rows rows);
                 st_anos := map Some (anos_years (load_rows rows));
                 st_layout := layout_of (load_rows rows) lo hi c0 t0 t1 |}.
Proof.
  intros Hne Hall.
  set (df := load_rows rows).
  assert (Hcells : forallb is_present (year_cells df) = true)
    by (unfold df; now rewrite year_cells_present).
  pose proof (anos_of_present df Hcells) as Hanos.
  destruct rows as [|raw0 rows']; [congruence|].
  assert (Hraw0 : parseable raw0 = true)
    by (simpl in Hall; now apply andb_prop in Hall).
  assert (Hin0 : In (load_row raw0) df) by (now left).
  (* the years *)
  destruct (anos_years df) as [|y0 ys] eqn:Hys.
  { exfalso. pose proof (parseable_year raw0) as Hy. rewrite Hraw0 in Hy.
    destruct (year (load_row raw0)) as [y|] eqn:E; [|discriminate].
    assert (In y (anos_years df)) by (apply In_anos_years; eauto).
    rewrite Hys in *. contradiction. }
  destruct (py_min_year y0 ys) as (lo & Hmin & Hlo & Hlo').
  destruct (py_max_year y0 ys) as (hi & Hmax & Hhi & Hhi').
  assert (Hlast : item_last (map Some (y0 :: ys)) = Done (Some hi)).
  { destruct (item_last_nonempty (y0 :: ys)) as (l' & x & Hx & _);
      [discriminate|].
    rewrite Hx, map_app. simpl. rewrite item_last_app. do 2 f_equal.
    pose proof (anos_years_increasing df) as Hs. rewrite Hys, Hx in Hs.
    assert (hi <= x)
      by (apply (StronglySorted_last_greatest l' x Hs); now rewrite <- Hx).
    assert (x <= hi)
      by (apply Hhi'; rewrite Hx; apply in_or_app; right; now left).
    lia. }
  (* the cities *)
  destruct (cidades_of df) as [|c0 cs] eqn:Hcs.
  { exfalso. assert (In (cidade (load_row raw0)) (cidades_of df))
      by (apply In_cidades_of; eauto).
    rewrite Hcs in *. contradiction. }
  (* the timestamps *)
  assert (Hidx : forallb is_present (map index df) = true).
  { apply forallb_forall. intros c Hc. apply in_map_iff in Hc.
    destruct Hc as (r & <- & Hr). unfold df, load_rows in Hr.
    apply in_map_iff in Hr. destruct Hr as (raw & <- & Hraw).
    rewrite parseable_index. rewrite forallb_forall in Hall. now apply Hall. }
  pose proof (forallb_present_map_Some _ Hidx) as Hcol.
  destruct (dropna (map index df)) as [|u0 us] eqn:Hts.
  { exfalso. apply (f_equal (@List.length _)) in Hcol.
    rewrite length_map in Hcol. discriminate. }
  destruct (py_min_index u0 us) as (t0 & Hmin' & Ht0 & Ht0').
  destruct (py_max_index u0 us) as (t1 & Hmax' & Ht1 & Ht1').
  exists lo, hi, c0, t0, t1. split.
  - unfold layout_facts. rewrite Hys, Hcol.
    split; [split; [exact Hlo | split; [exact Hhi|]]|].
    { intros y Hy. split; auto. }
    split; [now exists cs|].
    split; [|split; assumption].
    split; [now apply in_map|]. split; [now apply in_map|].
    intros r Hr. assert (Hc : In (index r) (map Some (u0 :: us)))
      by (rewrite <- Hcol; now apply in_map).
    apply in_map_iff in Hc. destruct Hc as (t & Ht & Hin).
    exists t. split; [now symmetry|]. split; auto.
  - unfold startup, layout_of.
    change (load_data (Sheet (raw0 :: rows'))) with (Ok df).
    cbn [of_load bind]. cbv zeta.
    rewrite Hanos, Hcs, Hys, Hcol.
    rewrite Hmin, Hmax. cbn [bind].
    rewrite marks_present. cbn [bind item0].
    rewrite Hlast. cbn [bind].
    rewrite Hmin', Hmax'. cbn [bind dt_date option_map].
    rewrite map_map. reflexivity.
Qed.

Lemma startup_station : startup (Sheet station_sheet) = Done station_started.
Proof. reflexivity. Qed.

Lemma startup_unreadable :
  startup Unreadable = Failed (LoadError FileNotFoundError).
Proof. reflexivity. Qed.

Lemma startup_empty : startup (Sheet []) = Failed ValueError.
Proof. reflexivity. Qed.

Lemma startup_unparseable (rows : list RawRow) :
  forallb parseable rows = false -> startup (Sheet rows) = Failed ValueError.
Proof.
  intros Hall.
  set (df := load_rows rows).
  assert (Hcells : forallb is_present (year_cells df) = false)
    by (unfold df; now rewrite year_cells_present).
  destruct (anos_of_missing df Hcells) as [Hanos Hnone].
  destruct (year_cells df) as [|c l] eqn:Hc; [contradiction|].
  destruct (py_min_total (cell_ltb Z.ltb) c l
              (cell_ltb_irrefl Z.ltb Z_ltb_irrefl)
              (cell_ltb_trans Z.ltb Z_ltb_trans)) as (lo & Hmin & _).
  destruct (py_max_total (cell_ltb Z.ltb) c l
              (cell_ltb_irrefl Z.ltb Z_ltb_irrefl)
              (cell_ltb_trans Z.ltb Z_ltb_trans)) as (hi & Hmax & _).
  unfold startup.
  change (load_data (Sheet rows)) with (Ok df).
  cbn [of_load bind]. cbv zeta. rewrite Hanos.
  change year_lt with (fun a b => Done (cell_ltb Z.ltb a b)).
  change year_gt with (fun a b => Done (cell_ltb Z.ltb b a)).
  rewrite Hmin, Hmax. cbn [bind].
  now rewrite (marks_missing (c :: l) Hnone).
Qed.

Lemma startup_inv (res : Resource) (st : Started) :
  startup res = Done st ->
  exists rows, res = Sheet rows /\ rows <> []
               /\ forallb parseable rows = true.
Proof.
  destruct res as [|rows]; [discriminate|]. intros H.
  exists rows. split; [reflexivity|].
  destruct (forallb parseable rows) eqn:E.
  - split; [|reflexivity]. intros ->. discriminate.
  - rewrite (startup_unparseable rows E) in H. discriminate.
Qed.

(** A start-up that succeeds gives the layout of [layout_of]. *)
Lemma startup_Done (res : Resource) (st : Started) :
  startup res = Done st ->
  exists rows lo hi c0 t0 t1,
    res = Sheet rows /\ rows <> [] /\ forallb parseable rows = true
    /\ layout_facts (load_rows rows) lo hi c0 t0 t1
    /\ st = {| st_df := load_rows rows;
               st_cidades := cidades_of (load_rows rows);
               st_anos := map Some (anos_years (load_rows rows));
               st_layout := layout_of (load_rows rows) lo hi c0 t0 t1 |}.
Proof.
  intros H. destruct (startup_inv res st H) as (rows & -> & Hne & Hall).
  destruct (startup_run rows Hne Hall) as (lo & hi & c0 & t0 & t1 & Hf & Hrun).
  exists rows, lo, hi, c0, t0, t1.
  split; [reflexivity|]. split; [exact Hne|]. split; [exact Hall|].
  split; [exact Hf|].
  rewrite Hrun in H. now injection H as <-.
Qed.

End StartupFacts.

Section DropDuplicates.
Import Pandas PandasFacts.

Lemma drop_duplicates_keys {K : Type} (eqb : K -> K -> bool) (key : Row -> K)
  (rows : list Row) :
  map key (drop_duplicates eqb key rows) = unique eqb (map key rows).
Proof.
  induction rows as [|r rows IH]; simpl; [reflexivity|]. f_equal.
  rewrite <- IH.
  symmetry. apply (filter_map_comm key (fun k => negb (eqb (key r) k))).
Qed.

(** A row kept by [drop_duplicates] is the first row of its key. *)
Lemma drop_duplicates_first {K : Type} (eqb : K -> K -> bool)
  (eqb_eq : forall x y, eqb x y = true <-> x = y) (key : Row -> K)
  (rows : list Row) (r : Row) :
  In r (drop_duplicates eqb key rows) ->
  exists l1 l2, rows = l1 ++ r :: l2
                /\ forall r', In r' l1 -> key r' <> key r.
Proof.
  induction rows as [|r0 rows IH]; simpl; [tauto|].
  intros [<-|H].
  - exists [], rows. split; [reflexivity | intros r' []].
  - apply filter_In in H. destruct H as [H Hk].
    destruct (IH H) as (l1 & l2 & -> & Hfirst).
    exists (r0 :: l1), l2. split; [reflexivity|].
    intros r' [<-|Hr']; [|auto].
    apply negb_true_iff in Hk. intros E. apply eqb_eq in E. congruence.
Qed.

End DropDuplicates.


(** X2.  In a process that started, the table is not empty and every
    row has its timestamp, year and month; so [dias_ondas_calor] returns
    proper dates only, for every city. *)
Theorem started_table_dated (res : Resource) (st : Started) :
  startup res = Done st ->
  st_df st <> []
  /\ Forall (fun r => exists t, index r = Some t
                                /\ year r = Some (ts_year t)
                                /\ month r = Some (month_number (ts_month t)))
            (st_df st)
  /\ forall cid, Forall (fun d => d <> None) (dias_ondas_calor (st_df st) cid).
Proof.
  intros H.
  destruct (StartupFacts.startup_Done res st H)
    as (rows & lo & hi & c0 & t0 & t1 & -> & Hne & Hall & _ & ->).
  cbn [st_df].
  assert (Hrows : Forall (fun r => exists t, index r = Some t
                                /\ year r = Some (ts_year t)
                                /\ month r = Some (month_number (ts_month t)))
                         (load_rows rows)).
  { apply Forall_forall. intros r Hr. unfold load_rows in Hr.
    apply in_map_iff in Hr. destruct Hr as (raw & <- & Hraw).
    rewrite forallb_forall in Hall. specialize (Hall raw Hraw).
    unfold parseable in Hall. unfold load_row. simpl.
    destruct (raw_index raw) as [t|]; [|discriminate].
    exists t. simpl. auto. }
  split; [|split; [exact Hrows|]].
  - destruct rows; [congruence | discriminate].
  - intros cid. apply Forall_forall. intros d Hd.
    apply dias_ondas_calor_In in Hd. destruct Hd as (r & Hr & _ & _ & <-).
    rewrite Forall_forall in Hrows. destruct (Hrows r Hr) as (t & -> & _).
    discriminate.
Qed.

Lemma started_table_dated_witness :
  startup (Sheet station_sheet) = Done station_started
  /\ st_df station_started <> [].
Proof.
  split; [reflexivity|].
  apply (started_table_dated (Sheet station_sheet) station_started).
  reflexivity.
Defined.

(** X3.  In a process that started, [anos] holds the years of the table,
    each once and ascending; the range slider runs from its least to its
    greatest year, which bound the year of every row, and starts with
    that whole range selected; it has one mark per year, labelled with
    the year in decimal; the year dropdown offers the same years and
    starts at the greatest. *)
Theorem started_years (res : Resource) (st : Started) :
  startup res = Done st ->
  exists lo hi ys,
    st_anos st = map Some ys
    /\ StronglySorted Z.lt ys
    /\ (forall y, In y ys <-> exists r, In r (st_df st) /\ year r = Some y)
    /\ In lo ys /\ In hi ys /\ (forall y, In y ys -> lo <= y <= hi)
    /\ slider_min (st_layout st) = Some lo
    /\ slider_max (st_layout st) = Some hi
    /\ slider_value (st_layout st) = (Some lo, Some hi)
    /\ slider_marks (st_layout st) = map (fun y => (y, str_int y)) ys
    /\ ano_hw_options (st_layout st) = map (fun y => (str_int y, Some y)) ys
    /\ ano_hw_value (st_layout st) = Some hi.
Proof.
  intros H.
  destruct (StartupFacts.startup_Done res st H)
    as (rows & lo & hi & c0 & t0 & t1 & -> & _ & _ & Hf & ->).
  destruct Hf as ((Hlo & Hhi & Hb) & _).
  exists lo, hi, (anos_years (load_rows rows)). cbn.
  split; [reflexivity|].
  split; [apply StartupFacts.anos_years_increasing|].
  split; [intros y; apply StartupFacts.In_anos_years|].
  repeat (split; [assumption || reflexivity|]). reflexivity.
Qed.

Lemma started_years_witness :
  startup (Sheet station_sheet) = Done station_started
  /\ exists lo hi ys,
       st_anos station_started = map Some ys
       /\ StronglySorted Z.lt ys
       /\ (forall y, In y ys
                     <-> exists r, In r (st_df station_started)
                                   /\ year r = Some y)
       /\ In lo ys /\ In hi ys /\ (forall y, In y ys -> lo <= y <= hi)
       /\ slider_min (st_layout station_started) = Some lo
       /\ slider_max (st_layout station_started) = Some hi
       /\ slider_value (st_layout station_started) = (Some lo, Some hi)
       /\ slider_marks (st_layout station_started)
          = map (fun y => (y, str_int y)) ys
       /\ ano_hw_options (st_layout station_started)
          = map (fun y => (str_int y, Some y)) ys
       /\ ano_hw_value (st_layout station_started) = Some hi.
Proof.
  split; [reflexivity|].
  apply (started_years (Sheet station_sheet) station_started).
  reflexivity.
Defined.

(** X4.  In a process that started, the map has one marker per city of
    the table and no city twice; the marker of a city stands at the
    coordinates of the first row of that city in the table. *)
Theorem started_markers (res : Resource) (st : Started) :
  startup res = Done st ->
  NoDup (map snd (map_markers (st_layout st)))
  /\ (forall c, In c (map snd (map_markers (st_layout st)))
                <-> In c (st_cidades st))
  /\ Forall (fun m =>
               exists l1 r l2,
                 st_df st = l1 ++ r :: l2
                 /\ m = ((Lat r, Long r), cidade r)
                 /\ forall r', In r' l1 -> cidade r' <> cidade r)
            (map_markers (st_layout st)).
Proof.
  intros H.
  destruct (StartupFacts.startup_Done res st H)
    as (rows & lo & hi & c0 & t0 & t1 & -> & _ & _ & _ & ->).
  cbn [st_layout st_df st_cidades layout_of map_markers].
  set (df := load_rows rows).
  assert (Hk : map snd (map (fun row => ((Lat row, Long row), cidade row))
                            (drop_duplicates String.eqb cidade df))
               = Pandas.unique String.eqb (map cidade df)).
  { rewrite map_map. cbn [snd]. apply drop_duplicates_keys. }
  rewrite Hk. split; [|split].
  - apply (PandasFacts.NoDup_unique String.eqb String.eqb_eq).
  - intros c. unfold cidades_of. now rewrite PandasFacts.In_sorted.
  - apply Forall_forall. intros m Hm. apply in_map_iff in Hm.
    destruct Hm as (r & <- & Hr).
    destruct (drop_duplicates_first String.eqb String.eqb_eq cidade df r Hr)
      as (l1 & l2 & Hdf & Hfirst).
    exists l1, r, l2. auto.
Qed.

Lemma started_markers_witness :
  startup (Sheet station_sheet) = Done station_started
  /\ NoDup (map snd (map_markers (st_layout station_started))).
Proof.
  split; [reflexivity|].
  apply (started_markers (Sheet station_sheet) station_started).
  reflexivity.
Defined.

(** X5.  In a process that started, both city dropdowns offer the cities
    of the table in ascending order and start at the first of them: a
    city of the table that no other city precedes. *)
Theorem started_cities (res : Resource) (st : Started) :
  startup res = Done st ->
  let c0 := cidade_temp_value (st_layout st) in
  cidade_hw_value (st_layout st) = c0
  /\ cidade_temp_options (st_layout st) = st_cidades st
  /\ cidade_hw_options (st_layout st) = map (fun c => (c, c)) (st_cidades st)
  /\ StronglySorted (fun a b => String.leb a b = true) (st_cidades st)
  /\ NoDup (st_cidades st)
  /\ (forall c, In c (st_cidades st)
                <-> exists r, In r (st_df st) /\ cidade r = c)
  /\ In c0 (st_cidades st)
  /\ forall c, In c (st_cidades st) -> String.leb c0 c = true.
Proof.
  intros H.
  destruct (StartupFacts.startup_Done res st H)
    as (rows & lo & hi & c0 & t0 & t1 & -> & _ & _ & Hf & ->).
  destruct Hf as (_ & (cs & Hcs) & _). cbn.
  assert (Hs : StronglySorted (fun a b => String.leb a b = true)
                              (cidades_of (load_rows rows))).
  { apply PandasFacts.sorted_StronglySorted.
    - apply String.leb_total.
    - apply OrderFacts.string_leb_trans. }
  split; [reflexivity|]. split; [reflexivity|]. split; [reflexivity|].
  split; [exact Hs|]. split; [apply NoDup_cidades_of|].
  split; [intros c; apply In_cidades_of|].
  rewrite Hcs in *. split; [now left|].
  intros c [<-|Hc].
  - destruct (String.leb_total c0 c0); assumption.
  - inversion Hs as [|? ? _ Hall]; subst.
    rewrite Forall_forall in Hall. now apply Hall.
Qed.

Lemma started_cities_witness :
  startup (Sheet station_sheet) = Done station_started
  /\ In (cidade_temp_value (st_layout station_started))
        (st_cidades station_started).
Proof.
  split; [reflexivity|].
  apply (started_cities (Sheet station_sheet) station_started).
  reflexivity.
Defined.

(** X6.  In a process that started, the date picker is bounded by the
    dates of the earliest and the latest timestamp of the table: both
    are dates of rows, and the date of every row lies between them. *)
Theorem started_calendar (res : Resource) (st : Started) :
  startup res = Done st ->
  exists d0 d1,
    calendario_min (st_layout st) = Some d0
    /\ calendario_max (st_layout st) = Some d1
    /\ (exists r, In r (st_df st) /\ dt_date (index r) = Some d0)
    /\ (exists r, In r (st_df st) /\ dt_date (index r) = Some d1)
    /\ forall r, In r (st_df st) ->
                 exists t, index r = Some t
                           /\ date_le d0 (ts_date t)
                           /\ date_le (ts_date t) d1.
Proof.
  intros H.
  destruct (StartupFacts.startup_Done res st H)
    as (rows & lo & hi & c0 & t0 & t1 & -> & _ & _ & Hf & ->).
  destruct Hf as (_ & _ & (Hin0 & Hin1 & Hb) & _).
  exists (ts_date t0), (ts_date t1). cbn.
  split; [reflexivity|]. split; [reflexivity|].
  apply in_map_iff in Hin0. destruct Hin0 as (r0 & E0 & Hr0).
  apply in_map_iff in Hin1. destruct Hin1 as (r1 & E1 & Hr1).
  split; [exists r0; rewrite E0; auto|].
  split; [exists r1; rewrite E1; auto|].
  intros r Hr. destruct (Hb r Hr) as (t & Ht & Hle0 & Hle1).
  exists t. split; [exact Ht|]. split; now apply ts_le_date_le.
Qed.

Lemma started_calendar_witness :
  startup (Sheet station_sheet) = Done station_started
  /\ exists d0 d1,
       calendario_min (st_layout station_started) = Some d0
       /\ calendario_max (st_layout station_started) = Some d1
       /\ (exists r, In r (st_df station_started)
                     /\ dt_date (index r) = Some d0)
       /\ (exists r, In r (st_df station_started)
                     /\ dt_date (index r) = Some d1)
       /\ forall r, In r (st_df station_started) ->
                    exists t, index r = Some t
                              /\ date_le d0 (ts_date t)
                              /\ date_le (ts_date t) d1.
Proof.
  split; [reflexivity|].
  apply (started_calendar (Sheet station_sheet) station_started).
  reflexivity.
Defined.

(** ** The callbacks *)

Module CallbackFacts.
Import Pandas PandasFacts PythonFacts OrderFacts.

Lemma dia_lt_present (nat_cmp : outcome bool) (a b : option Date) :
  is_present a = true -> is_present b = true ->
  dia_lt nat_cmp a b = Done (cell_ltb date_ltb a b).
Proof. destruct a, b; simpl; intros; try discriminate; reflexivity. Qed.

Lemma py_min_dia (nat_cmp : outcome bool) (d : Date) (ds : list Date) :
  exists d0, py_min (dia_lt nat_cmp) (map Some (d :: ds)) = Done (Some d0)
             /\ In d0 (d :: ds)
             /\ forall x, In x (d :: ds) -> date_le d0 x.
Proof.
  destruct (best_of_least (dia_lt nat_cmp) (cell_ltb date_ltb)
              (fun c => is_present c = true)
              (dia_lt_present nat_cmp)
              (cell_ltb_irrefl date_ltb date_ltb_irrefl)
              (cell_ltb_trans date_ltb date_ltb_trans)
              (map Some ds) (Some d) eq_refl)
    as (m & Hm & Hin & Hall).
  { apply Forall_forall. intros c Hc. apply in_map_iff in Hc.
    now destruct Hc as (x & <- & _). }
  change (Some d :: map Some ds) with (map Some (d :: ds)) in *.
  apply in_map_iff in Hin. destruct Hin as (d0 & <- & Hd0).
  exists d0. split; [exact Hm|]. split; [exact Hd0|].
  intros x Hx. specialize (Hall (Some x) (in_map Some _ _ Hx)).
  simpl in Hall. now apply date_ltb_false_le.
Qed.

Lemma dia_gt_present (nat_cmp : outcome bool) (a b : option Date) :
  is_present a = true -> is_present b = true ->
  dia_gt nat_cmp a b = Done (cell_ltb date_ltb b a).
Proof. destruct a, b; simpl; intros; try discriminate; reflexivity. Qed.

Lemma py_max_dia (nat_cmp : outcome bool) (d : Date) (ds : list Date) :
  exists d1, py_max (dia_gt nat_cmp) (map Some (d :: ds)) = Done (Some d1)
             /\ In d1 (d :: ds)
             /\ forall x, In x (d :: ds) -> date_le x d1.
Proof.
  destruct (best_of_least (dia_gt nat_cmp) (fun a b => cell_ltb date_ltb b a)
              (fun c => is_present c = true)
              (dia_gt_present nat_cmp)
              (cell_ltb_irrefl date_ltb date_ltb_irrefl)
              (cell_gtb_trans date_ltb date_ltb_trans)
              (map Some ds) (Some d) eq_refl)
    as (m & Hm & Hin & Hall).
  { apply Forall_forall. intros c Hc. apply in_map_iff in Hc.
    now destruct Hc as (x & <- & _). }
  change (Some d :: map Some ds) with (map Some (d :: ds)) in *.
  apply in_map_iff in Hin. destruct Hin as (d1 & <- & Hd1).
  exists d1. split; [exact Hm|]. split; [exact Hd1|].
  intros x Hx. specialize (Hall (Some x) (in_map Some _ _ Hx)).
  simpl in Hall. now apply date_ltb_false_le.
Qed.

Lemma update_hw_days (nat_cmp : outcome bool) (df : Table)
  (cidades : list string) (cid : string) (ano : Z) (d : Date) (ds : list Date) :
  dias_ondas_calor df cid = map Some (d :: ds) ->
  exists d0 d1,
    In d0 (d :: ds) /\ In d1 (d :: ds)
    /\ (forall x, In x (d :: ds) -> date_le d0 x /\ date_le x d1)
    /\ update_hw nat_cmp df cidades cid ano
       = Done (hw_outputs df cidades cid ano (Some d0) (Some d1)).
Proof.
  intros H.
  destruct (py_min_dia nat_cmp d ds) as (d0 & Hmin & Hd0 & Hle0).
  destruct (py_max_dia nat_cmp d ds) as (d1 & Hmax & Hd1 & Hle1).
  exists d0, d1. split; [exact Hd0|]. split; [exact Hd1|].
  split; [intros x Hx; split; auto|].
  unfold update_hw. cbv zeta. rewrite H.
  cbn [map]. change (Some d :: map Some ds) with (map Some (d :: ds)).
  rewrite Hmin. cbn [Python.bind]. rewrite Hmax. reflexivity.
Qed.

Lemma update_hw_no_days (nat_cmp : outcome bool) (df : Table)
  (cidades : list string) (cid : string) (ano : Z) (t0 t1 : Timestamp) :
  dias_ondas_calor df cid = [] ->
  Python.py_min index_lt (map index df) = Done (Some t0) ->
  Python.py_max index_gt (map index df) = Done (Some t1) ->
  update_hw nat_cmp df cidades cid ano
  = Done (hw_outputs df cidades cid ano (Some (ts_date t0)) (Some (ts_date t1))).
Proof.
  intros H Hmin Hmax. unfold update_hw. cbv zeta. rewrite H, Hmin.
  cbn [Python.bind]. rewrite Hmax. reflexivity.
Qed.

End CallbackFacts.

(** X7.  When the city has heat-wave rows and all of them have a
    timestamp, [update_hw] returns, as start date and least allowed
    date, the earliest heat-wave date of the city, and as end date and
    greatest allowed date the latest one, whatever a comparison with
    NaT would do. *)
Theorem update_hw_heat_days (nat_cmp : outcome bool) (df : Table)
  (cidades : list string) (cid : string) (ano : Z) :
  dias_ondas_calor df cid <> [] ->
  Forall (fun d => d <> None) (dias_ondas_calor df cid) ->
  exists out d0 d1,
    update_hw nat_cmp df cidades cid ano = Done out
    /\ hw_start_date out = Some d0 /\ hw_min_date_allowed out = Some d0
    /\ hw_end_date out = Some d1 /\ hw_max_date_allowed out = Some d1
    /\ In (Some d0) (dias_ondas_calor df cid)
    /\ In (Some d1) (dias_ondas_calor df cid)
    /\ forall d, In (Some d) (dias_ondas_calor df cid) ->
                 date_le d0 d /\ date_le d d1.
Proof.
  intros Hne Hall.
  assert (Hcol : dias_ondas_calor df cid
                 = map Some (Pandas.dropna (dias_ondas_calor df cid))).
  { apply StartupFacts.forallb_present_map_Some, forallb_forall.
    rewrite Forall_forall in Hall. intros [d|] Hd; [reflexivity|].
    now apply Hall in Hd. }
  destruct (Pandas.dropna (dias_ondas_calor df cid)) as [|d ds] eqn:E.
  { rewrite Hcol in Hne. now contradiction Hne. }
  destruct (CallbackFacts.update_hw_days nat_cmp df cidades cid ano d ds Hcol)
    as (d0 & d1 & H0 & H1 & Hle & Hrun).
  exists (hw_outputs df cidades cid ano (Some d0) (Some d1)), d0, d1.
  split; [exact Hrun|]. cbn. repeat (split; [reflexivity|]).
  rewrite Hcol. split; [now apply in_map|]. split; [now apply in_map|].
  intros x Hx. apply Hle. apply in_map_iff in Hx.
  destruct Hx as (y & Hy & Hin). now injection Hy as <-.
Qed.

Lemma update_hw_heat_days_witness :
  (dias_ondas_calor (load_rows sample_sheet) "Recife" <> []
   /\ Forall (fun d => d <> None)
             (dias_ondas_calor (load_rows sample_sheet) "Recife"))
  /\ exists out d0 d1,
       update_hw (Failed TypeError) (load_rows sample_sheet)
                 ["Manaus"; "Recife"] "Recife" 2020 = Done out
       /\ hw_start_date out = Some d0 /\ hw_min_date_allowed out = Some d0
       /\ hw_end_date out = Some d1 /\ hw_max_date_allowed out = Some d1
       /\ In (Some d0) (dias_ondas_calor (load_rows sample_sheet) "Recife")
       /\ In (Some d1) (dias_ondas_calor (load_rows sample_sheet) "Recife")
       /\ forall d, In (Some d) (dias_ondas_calor (load_rows sample_sheet) "Recife") ->
                    date_le d0 d /\ date_le d d1.
Proof.
  assert (H1 : dias_ondas_calor (load_rows sample_sheet) "Recife" <> [])
    by discriminate.
  assert (H2 : Forall (fun d => d <> None)
                      (dias_ondas_calor (load_rows sample_sheet) "Recife"))
    by (repeat constructor; discriminate).
  split; [split; assumption|].
  exact (update_hw_heat_days (Failed TypeError) (load_rows sample_sheet)
           ["Manaus"; "Recife"] "Recife" 2020 H1 H2).
Defined.

(** X8.  In a process that started, [update_hw] never raises, for any
    city and year (known or not) and whatever a comparison with NaT
    would do.  The start and end dates it returns are also the allowed
    bounds, they are in order, and they lie within the bounds of the
    date picker of the layout; for a city without heat-wave rows they
    are those bounds. *)
Theorem update_hw_started (res : Resource) (st : Started)
  (nat_cmp : outcome bool) (cid : string) (ano : Z) :
  startup res = Done st ->
  exists out d0 d1 c0 c1,
    update_hw nat_cmp (st_df st) (st_cidades st) cid ano = Done out
    /\ hw_start_date out = Some d0 /\ hw_min_date_allowed out = Some d0
    /\ hw_end_date out = Some d1 /\ hw_max_date_allowed out = Some d1
    /\ calendario_min (st_layout st) = Some c0
    /\ calendario_max (st_layout st) = Some c1
    /\ date_le c0 d0 /\ date_le d0 d1 /\ date_le d1 c1
    /\ (dias_ondas_calor (st_df st) cid = [] -> d0 = c0 /\ d1 = c1).
Proof.
  intros H.
  destruct (StartupFacts.startup_Done res st H)
    as (rows & lo & hi & c & t0 & t1 & -> & _ & _ & Hf & ->).
  destruct Hf as (_ & _ & (Hin0 & Hin1 & Hb) & Hmin & Hmax).
  cbn [st_df st_cidades st_layout layout_of calendario_min calendario_max] in *.
  set (df := load_rows rows) in *.
  assert (Hrange : forall d, In (Some d) (dias_ondas_calor df cid) ->
                             date_le (ts_date t0) d /\ date_le d (ts_date t1)).
  { intros d Hd. apply dias_ondas_calor_In in Hd.
    destruct Hd as (r & Hr & _ & _ & Hd).
    destruct (Hb r Hr) as (t & Ht & Hle0 & Hle1).
    rewrite Ht in Hd. injection Hd as <-.
    split; now apply ts_le_date_le. }
  destruct (dias_ondas_calor df cid) as [|x xs] eqn:E.
  - exists (hw_outputs df (cidades_of df) cid ano
                       (Some (ts_date t0)) (Some (ts_date t1))),
      (ts_date t0), (ts_date t1), (ts_date t0), (ts_date t1).
    split; [now apply CallbackFacts.update_hw_no_days|].
    cbn. repeat (split; [reflexivity|]).
    split; [now right|]. split.
    + apply in_map_iff in Hin1. destruct Hin1 as (r & Hr1 & Hr).
      destruct (Hb r Hr) as (t & Ht & Hle0 & _).
      rewrite Ht in Hr1. injection Hr1 as ->. now apply ts_le_date_le.
    + split; [now right | auto].
  - assert (Hcol : dias_ondas_calor df cid
                   = map Some (Pandas.dropna (dias_ondas_calor df cid))).
    { apply StartupFacts.forallb_present_map_Some, forallb_forall.
      intros [d|] Hd; [reflexivity|]. exfalso.
      apply dias_ondas_calor_In in Hd. destruct Hd as (r & Hr & _ & _ & Hd).
      destruct (Hb r Hr) as (t & Ht & _). rewrite Ht in Hd. discriminate. }
    rewrite <- E in Hrange.
    destruct (Pandas.dropna (dias_ondas_calor df cid)) as [|d ds] eqn:Ed.
    { rewrite E in Hcol. discriminate. }
    destruct (CallbackFacts.update_hw_days nat_cmp df (cidades_of df) cid ano
                d ds Hcol)
      as (d0 & d1 & Hd0 & Hd1 & Hle & Hrun).
    exists (hw_outputs df (cidades_of df) cid ano (Some d0) (Some d1)),
      d0, d1, (ts_date t0), (ts_date t1).
    split; [exact Hrun|]. cbn. repeat (split; [reflexivity|]).
    assert (Hdia0 : In (Some d0) (dias_ondas_calor df cid))
      by (rewrite Hcol; now apply in_map).
    assert (Hdia1 : In (Some d1) (dias_ondas_calor df cid))
      by (rewrite Hcol; now apply in_map).
    split; [apply (Hrange d0 Hdia0)|]. split; [apply (Hle d1 Hd1)|].
    split; [apply (Hrange d1 Hdia1)|]. discriminate.
Qed.

Lemma update_hw_started_witness :
  startup (Sheet station_sheet) = Done station_started
  /\ exists out d0 d1 c0 c1,
       update_hw (Failed TypeError) (st_df station_started)
                 (st_cidades station_started) "Olinda" 2001 = Done out
       /\ hw_start_date out = Some d0 /\ hw_min_date_allowed out = Some d0
       /\ hw_end_date out = Some d1 /\ hw_max_date_allowed out = Some d1
       /\ calendario_min (st_layout station_started) = Some c0
       /\ calendario_max (st_layout station_started) = Some c1
       /\ date_le c0 d0 /\ date_le d0 d1 /\ date_le d1 c1
       /\ (dias_ondas_calor (st_df station_started) "Olinda" = [] ->
           d0 = c0 /\ d1 = c1).
Proof.
  split; [reflexivity|].
  apply (update_hw_started (Sheet station_sheet) station_started).
  reflexivity.
Defined.

Section Charts.
Import Pandas PandasFacts PythonFacts.

Lemma update_hw_figures (nat_cmp : outcome bool) (df : Table)
  (cidades : list string) (cid : string) (ano : Z) (out : HwOutputs) :
  update_hw nat_cmp df cidades cid ano = Done out ->
  hw_heatmap out = prepare_heatmap_data cidades df
  /\ pf_r (hw_polar out) = map snd (calculate_hw_monthly df cid ano)
  /\ pf_theta (hw_polar out) = map fst (calculate_hw_monthly df cid ano)
  /\ hw_min_date_allowed out = hw_start_date out
  /\ hw_max_date_allowed out = hw_end_date out.
Proof.
  unfold update_hw. cbv zeta. intros H.
  apply bind_inv in H. destruct H as (bounds & _ & H).
  injection H as <-. cbn. repeat split; reflexivity.
Qed.

Lemma calculate_hw_monthly_sum (raws : list RawRow) (cid : string) (ano : Z) :
  list_sum (map snd (calculate_hw_monthly (load_rows raws) cid ano))
  = List.length (hw_monthly_dff (load_rows raws) cid ano).
Proof.
  rewrite calculate_hw_monthly_counts, map_map. cbn [snd].
  apply sum_over_calendar.
  apply Forall_forall. intros r Hr.
  apply filter_In in Hr. destruct Hr as [Hr Hm].
  apply andb_prop in Hm. destruct Hm as [Hm _].
  apply andb_prop in Hm. destruct Hm as [_ Hy].
  apply year_eq_true in Hy.
  exact (load_rows_year_index raws r ano Hr Hy).
Qed.

Lemma load_rows_year (raws : list RawRow) (r : Row) :
  In r (load_rows raws) -> year r = option_map ts_year (index r).
Proof.
  unfold load_rows. rewrite in_map_iff. now intros (raw & <- & _).
Qed.

End Charts.

(** X9.  The two charts [update_hw] returns agree: for a city of
    [cidades] and a year of the span 1981 to 2023, the twelve
    frequencies of the polar chart, which are labelled January to
    December, add up to the cell of that city and year in the
    heatmap. *)
Theorem update_hw_charts_agree (nat_cmp : outcome bool) (raws : list RawRow)
  (cidades : list string) (cid : string) (ano : Z) (out : HwOutputs) :
  In cid cidades -> 1981 <= ano <= 2023 ->
  update_hw nat_cmp (load_rows raws) cidades cid ano = Done out ->
  pf_theta (hw_polar out)
  = ["January"; "February"; "March"; "April"; "May"; "June";
     "July"; "August"; "September"; "October"; "November"; "December"]
  /\ List.length (pf_r (hw_polar out)) = 12%nat
  /\ In ((cid, ano), list_sum (pf_r (hw_polar out))) (hw_heatmap out).
Proof.
  intros Hc Hy H.
  destruct (update_hw_figures _ _ _ _ _ _ H) as (-> & -> & -> & _).
  split; [|split].
  - now rewrite calculate_hw_monthly_counts, map_map.
  - now rewrite calculate_hw_monthly_counts, !length_map.
  - rewrite calculate_hw_monthly_sum, prepare_heatmap_data_cells.
    apply in_map_iff. exists (cid, ano). split.
    + f_equal. cbn [fst snd]. unfold hw_monthly_dff. f_equal.
      apply filter_ext. intros r.
      destruct (is_hw r), (cidade r =? cid)%string, (year_eq (year r) ano);
        reflexivity.
    + apply in_prod_iff. split; [exact Hc|].
      apply PandasFacts.In_py_range. lia.
Qed.

Lemma update_hw_charts_agree_witness :
  (In "Recife" ["Manaus"; "Recife"] /\ 1981 <= 2020 <= 2023
   /\ update_hw (Failed TypeError) (load_rows sample_sheet)
                ["Manaus"; "Recife"] "Recife" 2020
      = Done (hw_outputs (load_rows sample_sheet) ["Manaus"; "Recife"]
                         "Recife" 2020
                         (Some (mkDate 2020 January 3))
                         (Some (mkDate 2020 March 9))))
  /\ In (("Recife", 2020), 3%nat)
        (prepare_heatmap_data ["Manaus"; "Recife"] (load_rows sample_sheet)).
Proof.
  assert (H1 : In "Recife" ["Manaus"; "Recife"]) by (right; left; reflexivity).
  assert (H2 : 1981 <= 2020 <= 2023) by lia.
  assert (H3 : update_hw (Failed TypeError) (load_rows sample_sheet)
                 ["Manaus"; "Recife"] "Recife" 2020
               = Done (hw_outputs (load_rows sample_sheet) ["Manaus"; "Recife"]
                         "Recife" 2020
                         (Some (mkDate 2020 January 3))
                         (Some (mkDate 2020 March 9))))
    by reflexivity.
  split; [split; [exact H1 | split; [exact H2 | exact H3]]|].
  exact (proj2 (proj2 (update_hw_charts_agree _ _ _ _ _ _ H1 H2 H3))).
Defined.

Section TempCharts.

Lemma marker_sizes_defined (l : list Anomaly) :
  forallb is_present (map (fun a => nan_abs (an_anomalia a)) l) = true ->
  Forall2 (fun p s => exists q, an_anomalia p = Some q /\ s = Some (Qabs q))
          l (map (fun a => nan_abs (an_anomalia a)) l).
Proof.
  induction l as [|p l IH]; simpl; intros H; constructor.
  - destruct (an_anomalia p) as [q|]; [|discriminate]. now exists q.
  - apply IH. apply andb_true_iff in H. tauto.
Qed.

Lemma marker_size_missing (l : list Anomaly) :
  forallb is_present (map (fun a => nan_abs (an_anomalia a)) l) = false ->
  exists p, In p l /\ an_anomalia p = None.
Proof.
  induction l as [|p l IH]; simpl; intros H; [discriminate|].
  destruct (an_anomalia p) as [q|] eqn:E.
  - destruct (IH H) as (p' & Hin & Hp'). exists p'. auto.
  - exists p. auto.
Qed.

End TempCharts.

(** X10.  [update_temp] fails, with the [ValueError] of [px.scatter],
    exactly when some anomaly is NaN; otherwise the two charts it
    returns agree: the three temperature traces have one point per
    timestamp of the x axis; every timestamp shown lies in a year of the
    selected range; the anomaly chart shows the records of
    [calculate_anomalies], whose years ascend and are exactly the years
    of the timestamps shown; and the marker of every record has the
    absolute value of its anomaly as size. *)
Theorem update_temp_charts (ops : Float64Ops) (raws : list RawRow)
  (cid : string) (ano_inicio ano_fim : Z) :
  let anomalies :=
    Float64.calculate_anomalies ops (load_rows raws) cid ano_inicio ano_fim in
  match update_temp ops (load_rows raws) cid (ano_inicio, ano_fim) with
  | Failed e =>
      e = ValueError /\ exists p, In p anomalies /\ an_anomalia p = None
  | Done (fig_temp, fig_anomalia) =>
      (List.length (tf_maxima fig_temp) = List.length (tf_x fig_temp)
       /\ List.length (tf_media fig_temp) = List.length (tf_x fig_temp)
       /\ List.length (tf_minima fig_temp) = List.length (tf_x fig_temp))
      /\ Forall (fun c => exists t, c = Some t
                                    /\ ano_inicio <= ts_year t <= ano_fim)
                (tf_x fig_temp)
      /\ af_points fig_anomalia = anomalies
      /\ StronglySorted Z.lt (map an_year (af_points fig_anomalia))
      /\ (forall y, In y (map an_year (af_points fig_anomalia))
                    <-> exists t, In (Some t) (tf_x fig_temp) /\ ts_year t = y)
      /\ Forall2 (fun p s => exists q, an_anomalia p = Some q
                                       /\ s = Some (Qabs q))
                 (af_points fig_anomalia) (af_size fig_anomalia)
  end.
Proof.
  intros anomalies. unfold update_temp, px_scatter. fold anomalies.
  destruct (forallb is_present
              (map (fun a => nan_abs (an_anomalia a)) anomalies)) eqn:E;
    cbn [Python.bind].
  2: { split; [reflexivity | now apply marker_size_missing]. }
  cbn [tf_x tf_maxima tf_media tf_minima af_points af_size].
  fold (anomalies_dff (load_rows raws) cid ano_inicio ano_fim).
  set (dff := anomalies_dff (load_rows raws) cid ano_inicio ano_fim).
  assert (Hrow : forall r, In r dff ->
                           exists t, index r = Some t
                                     /\ year r = Some (ts_year t)
                                     /\ ano_inicio <= ts_year t <= ano_fim).
  { intros r Hr. apply anomalies_dff_In in Hr.
    destruct Hr as (Hr & _ & y & Hy & Hb).
    pose proof (load_rows_year raws r Hr) as Hyr.
    destruct (index r) as [t|]; simpl in Hyr; [|congruence].
    exists t. split; [reflexivity|]. split; [exact Hyr|].
    assert (y = ts_year t) by congruence. lia. }
  assert (Hyears : map an_year anomalies
                   = Pandas.group_keys Z.eqb Z.leb (map year dff)).
  { unfold anomalies. rewrite calculate_anomalies_float_keys, map_map.
    cbn [an_year]. now rewrite map_id. }
  split; [repeat split; now rewrite !length_map|].
  split; [|split; [|split; [|split]]].
  - apply Forall_forall. intros c Hc. apply in_map_iff in Hc.
    destruct Hc as (r & <- & Hr). destruct (Hrow r Hr) as (t & Ht & _ & Hb).
    exists t. auto.
  - reflexivity.
  - rewrite Hyears. apply group_keys_year_increasing.
  - intros y. rewrite Hyears.
    rewrite (PandasFacts.In_group_keys Z.eqb Z.leb Z_eqb_eq), in_map_iff. split.
    + intros (r & Hy & Hr). destruct (Hrow r Hr) as (t & Ht & Hyt & _).
      exists t. split; [|congruence].
      apply in_map_iff. exists r. auto.
    + intros (t & Hin & <-). apply in_map_iff in Hin.
      destruct Hin as (r & Hi & Hr). exists r. split; [|exact Hr].
      destruct (Hrow r Hr) as (t' & Ht' & Hyt & _). congruence.
  - now apply marker_sizes_defined.
Qed.

(** ** Narrow year ranges *)

Section Narrow.
Import Pandas PandasFacts.

Lemma filter_all {A : Type} (p : A -> bool) (l : list A) :
  (forall a, In a l -> p a = true) -> filter p l = l.
Proof.
  induction l as [|a l IH]; simpl; intros H; [reflexivity|].
  rewrite (H a (or_introl eq_refl)). f_equal. apply IH.
  intros b Hb. apply H. now right.
Qed.

Lemma StronglySorted_lt_constant (a : Z) (l : list Z) :
  StronglySorted Z.lt l -> (forall y, In y l -> y = a) ->
  l = [] \/ l = [a].
Proof.
  intros Hs Hall. destruct l as [|x [|y l]]; [now left | right | exfalso].
  - f_equal. apply Hall. now left.
  - inversion Hs as [|? ? _ Hx]; subst. rewrite Forall_forall in Hx.
    assert (x < y) by (apply Hx; now left).
    assert (x = a) by (apply Hall; now left).
    assert (y = a) by (apply Hall; right; now left). lia.
Qed.

Lemma single_year_keys (df : Table) (cid : string) (a : Z) :
  group_keys Z.eqb Z.leb (map year (anomalies_dff df cid a a)) = []
  \/ group_keys Z.eqb Z.leb (map year (anomalies_dff df cid a a)) = [a].
Proof.
  apply StronglySorted_lt_constant; [apply group_keys_year_increasing|].
  intros y Hy. apply (In_group_keys Z.eqb Z.leb Z_eqb_eq) in Hy.
  apply in_map_iff in Hy. destruct Hy as (r & Hy & Hr).
  apply anomalies_dff_In in Hr. destruct Hr as (_ & _ & y' & Hy' & Hb).
  assert (y = y') by congruence. lia.
Qed.

Lemma single_year_group (df : Table) (cid : string) (a : Z) :
  filter (fun r => year_eq (year r) a) (anomalies_dff df cid a a)
  = anomalies_dff df cid a a.
Proof.
  apply filter_all. intros r Hr. apply anomalies_dff_In in Hr.
  destruct Hr as (_ & _ & y & Hy & Hb). rewrite Hy. simpl.
  apply Z.eqb_eq. lia.
Qed.

End Narrow.

(** X12.  For a range of a single year, [calculate_anomalies] returns no
    record when the city has no row in that year, and otherwise exactly
    one record, of that year, whose mean and whose baseline are both
    means of [tempMed] over the whole selection: its anomaly is the
    difference of the two means of the same cells, the one as
    [groupby(...).mean()] computes it and the other as [Series.mean()]
    does. *)
Theorem anomalies_single_year (ops : Float64Ops) (df : Table) (cid : string)
  (ano : Z) :
  let dff := filter (fun r => (cidade r =? cid)%string
                              && match year r with
                                 | Some y => y =? ano
                                 | None => false
                                 end) df in
  let year_mean := rounded_mean (group_avg ops) (map tempMed dff) in
  let baseline := rounded_mean (series_avg ops) (map tempMed dff) in
  (dff = [] /\ Float64.calculate_anomalies ops df cid ano ano = [])
  \/ (dff <> []
      /\ Float64.calculate_anomalies ops df cid ano ano
         = [ {| an_year := ano;
                an_tempMed := year_mean;
                an_anomalia :=
                  option_map (round ops) (minus year_mean baseline) |} ]).
Proof.
  intros dff year_mean baseline.
  assert (Hdff : anomalies_dff df cid ano ano = dff).
  { rewrite anomalies_dff_filter. apply filter_ext. intros r.
    destruct (year r) as [y|]; [|reflexivity]. f_equal.
    destruct (y =? ano) eqn:E.
    - apply Z.eqb_eq in E. subst y. now rewrite Z.leb_refl.
    - apply Z.eqb_neq in E.
      destruct (ano <=? y) eqn:E1, (y <=? ano) eqn:E2; try reflexivity.
      apply Z.leb_le in E1, E2. lia. }
  rewrite calculate_anomalies_float_keys.
  destruct dff as [|r l] eqn:E.
  - left. split; [reflexivity|]. now rewrite Hdff.
  - right. split; [discriminate|].
    destruct (single_year_keys df cid ano) as [Hk|Hk].
    + exfalso.
      assert (Hr : In r (anomalies_dff df cid ano ano)) by (rewrite Hdff; now left).
      pose proof Hr as Hr'.
      apply anomalies_dff_In in Hr. destruct Hr as (_ & _ & y & Hy & _).
      assert (Hin : In y (Pandas.group_keys Z.eqb Z.leb
                            (map year (anomalies_dff df cid ano ano)))).
      { apply (PandasFacts.In_group_keys Z.eqb Z.leb Z_eqb_eq).
        rewrite <- Hy. now apply in_map. }
      rewrite Hk in Hin. contradiction.
    + rewrite Hk. cbn [map]. rewrite single_year_group, Hdff.
      subst year_mean baseline.
      rewrite !rounded_mean_mean, rounded_minus_sub. reflexivity.
Qed.

(** X13.  For an inverted range (end before start) the selection is
    empty: [calculate_anomalies] returns no record, in exact arithmetic
    and in floating point alike, and [update_temp] returns its two
    charts, both empty. *)
Theorem inverted_range_empty (df : Table) (cid : string)
  (ano_inicio ano_fim : Z) :
  ano_fim < ano_inicio ->
  calculate_anomalies df cid ano_inicio ano_fim = []
  /\ forall ops : Float64Ops,
       Float64.calculate_anomalies ops df cid ano_inicio ano_fim = []
       /\ exists fig_temp fig_anomalia,
            update_temp ops df cid (ano_inicio, ano_fim)
            = Done (fig_temp, fig_anomalia)
            /\ tf_x fig_temp = []
            /\ tf_maxima fig_temp = []
            /\ tf_media fig_temp = []
            /\ tf_minima fig_temp = []
            /\ af_points fig_anomalia = []
            /\ af_size fig_anomalia = [].
Proof.
  intros Hlt.
  assert (Hdff : anomalies_dff df cid ano_inicio ano_fim = []).
  { apply PandasFacts.filter_nil_iff. intros r _.
    unfold year_ge, year_le. destruct (year r) as [y|]; simpl.
    - destruct (ano_inicio <=? y) eqn:E1, (y <=? ano_fim) eqn:E2;
        rewrite ?andb_false_r, ?andb_false_l; try reflexivity.
      apply Z.leb_le in E1, E2. lia.
    - now rewrite andb_false_r. }
  split.
  { unfold calculate_anomalies. now rewrite Hdff. }
  intros ops.
  assert (Hout : Float64.calculate_anomalies ops df cid ano_inicio ano_fim = []).
  { rewrite calculate_anomalies_float_keys. now rewrite Hdff. }
  split; [exact Hout|].
  unfold update_temp.
  fold (anomalies_dff df cid ano_inicio ano_fim).
  rewrite Hdff, Hout. cbn.
  do 2 eexists. split; [reflexivity|]. cbn. repeat split; reflexivity.
Qed.

Lemma inverted_range_empty_witness :
  2021 < 2022
  /\ calculate_anomalies (load_rows sample_sheet) "Recife" 2022 2021 = [].
Proof.
  split; [lia|].
  apply (inverted_range_empty (load_rows sample_sheet) "Recife" 2022 2021).
  lia.
Defined.

(** ** Rows the heatmap ignores *)

(** X14.  [prepare_heatmap_data] depends only on the heat-wave rows of
    the listed cities with a year from 1981 to 2023: rows without the
    flag, of another city, without a year or with a year outside the
    span change no cell. *)
Theorem prepare_heatmap_data_ignores (cidades : list string) (df : Table) :
  prepare_heatmap_data cidades df
  = prepare_heatmap_data cidades
      (filter (fun r => is_hw r
                        && year_ge (year r) 1981 && year_le (year r) 2023
                        && existsb (fun c => (cidade r =? c)%string) cidades)
              df).
Proof.
  rewrite !prepare_heatmap_data_cells.
  apply map_ext_in. intros [c y] Hcy. f_equal. f_equal.
  rewrite PandasFacts.filter_filter. apply filter_ext. intros r.
  cbn [fst snd].
  destruct (is_hw r && (cidade r =? c)%string && year_eq (year r) y) eqn:E;
    [|now rewrite andb_false_r].
  rewrite andb_true_r. symmetry.
  apply andb_prop in E. destruct E as [E Ey].
  apply andb_prop in E. destruct E as [Eh Ec].
  apply in_prod_iff in Hcy. destruct Hcy as [Hc Hy].
  apply PandasFacts.In_py_range in Hy.
  apply year_eq_true in Ey. rewrite Ey, Eh. simpl.
  apply andb_true_intro. split.
  - apply andb_true_intro. split; apply Z.leb_le; lia.
  - apply existsb_exists. exists c. auto.
Qed.

(** ** The text of the flag *)

Section FlagText.

Lemma upper_char_idempotent (c : ascii) : upper_char (upper_char c) = upper_char c.
Proof. destruct c as [[] [] [] [] [] [] [] []]; reflexivity. Qed.

Lemma upper_idempotent (s : string) : upper (upper s) = upper s.
Proof.
  induction s as [|c s IH]; simpl; [reflexivity|].
  now rewrite upper_char_idempotent, IH.
Qed.

Lemma upper_char_T (c : ascii) :
  upper_char c = "T"%char <-> c = "t"%char \/ c = "T"%char.
Proof.
  split; [|intros [->| ->]; reflexivity].
  destruct c as [[] [] [] [] [] [] [] []]; intros H;
    try discriminate H; auto.
Qed.

Lemma upper_char_R (c : ascii) :
  upper_char c = "R"%char <-> c = "r"%char \/ c = "R"%char.
Proof.
  split; [|intros [->| ->]; reflexivity].
  destruct c as [[] [] [] [] [] [] [] []]; intros H;
    try discriminate H; auto.
Qed.

Lemma upper_char_U (c : ascii) :
  upper_char c = "U"%char <-> c = "u"%char \/ c = "U"%char.
Proof.
  split; [|intros [->| ->]; reflexivity].
  destruct c as [[] [] [] [] [] [] [] []]; intros H;
    try discriminate H; auto.
Qed.

Lemma upper_char_E (c : ascii) :
  upper_char c = "E"%char <-> c = "e"%char \/ c = "E"%char.
Proof.
  split; [|intros [->| ->]; reflexivity].
  destruct c as [[] [] [] [] [] [] [] []]; intros H;
    try discriminate H; auto.
Qed.

End FlagText.

(** X15.  A text cell of the flag column counts as a heat wave exactly
    when it is the four letters t, r, u, e, each in either case: the
    text is not trimmed, and nothing else ("1", "yes", "true " with a
    space) counts. *)
Theorem flag_text (i : RawIndex) (c : string)
  (tmax tmed tmin lat long : option Q) (s : string) :
  is_hw (load_row (mkRawRow i c tmax tmed tmin (FlagStr s) lat long)) = true
  <-> exists c1 c2 c3 c4,
        s = String c1 (String c2 (String c3 (String c4 EmptyString)))
        /\ (c1 = "t"%char \/ c1 = "T"%char)
        /\ (c2 = "r"%char \/ c2 = "R"%char)
        /\ (c3 = "u"%char \/ c3 = "U"%char)
        /\ (c4 = "e"%char \/ c4 = "E"%char).
Proof.
  change (is_hw (load_row (mkRawRow i c tmax tmed tmin (FlagStr s) lat long)))
    with ((upper s =? "TRUE")%string).
  rewrite String.eqb_eq. split.
  - intros H.
    destruct s as [|c1 [|c2 [|c3 [|c4 [|c5 s]]]]]; simpl in H;
      try discriminate H.
    injection H as H1 H2 H3 H4.
    exists c1, c2, c3, c4. split; [reflexivity|].
    rewrite <- upper_char_T, <- upper_char_R, <- upper_char_U, <- upper_char_E.
    auto.
  - intros (c1 & c2 & c3 & c4 & -> & H1 & H2 & H3 & H4).
    apply upper_char_T in H1. apply upper_char_R in H2.
    apply upper_char_U in H3. apply upper_char_E in H4.
    simpl. now rewrite H1, H2, H3, H4.
Qed.

(** ** Rows of a loaded table *)

(** X16.  [load_data] keeps the rows of the sheet in order, one for one,
    and every loaded row is consistent: year and month are present
    exactly when the timestamp is, and are then its year and its month
    number, from 1 to 12; the flag text is in upper case. *)
Theorem load_rows_consistent (raws : list RawRow) :
  List.length (load_rows raws) = List.length raws
  /\ map cidade (load_rows raws) = map raw_cidade raws
  /\ map tempMed (load_rows raws) = map raw_tempMed raws
  /\ Forall (fun r =>
               match index r with
               | Some t => year r = Some (ts_year t)
                           /\ exists m, month r = Some m
                                        /\ m = month_number (ts_month t)
                                        /\ 1 <= m <= 12
               | None => year r = None /\ month r = None
               end
               /\ upper (isHW r) = isHW r)
            (load_rows raws).
Proof.
  split; [apply length_load_rows|].
  unfold load_rows. rewrite !map_map. split; [reflexivity|].
  split; [reflexivity|].
  apply Forall_forall. intros r Hr. apply in_map_iff in Hr.
  destruct Hr as (raw & <- & _). unfold load_row. cbn.
  split; [|apply upper_idempotent].
  destruct (raw_index raw) as [t|]; cbn; [|auto].
  split; [reflexivity|]. eexists. split; [reflexivity|].
  split; [reflexivity|]. destruct (ts_month t); simpl; lia.
Qed.
